(** * A bounded blocking queue with producer and consumer threads

    Shallow embedding of [assignment1_producer_consumer]:
    [blocking_queue.py], [producer.py] and [consumer.py].

    The queue guards all of its fields with one lock; the two condition
    variables [_not_full] and [_not_empty] share that lock.  A method
    body is therefore a sequence of critical sections, separated only
    by calls to [Condition.wait], which releases the lock, lets other
    threads run their own critical sections, and re-acquires it.  The
    embedding follows this structure:

    - a critical section is a pure function on the queue record;
    - a call to [put] or [get] is a loop over critical sections; what
      happens around each [wait] (which sections other threads ran, and
      whether the waiter was notified before its timeout) is supplied
      as an explicit schedule, so that the functions stay executable;
    - a caller that is alone on the queue is the special case of the
      schedule in which nothing else runs;
    - a call ends by returning, by staying parked in [wait] when the
      schedule ends, or by the exception [wait] raises for a timeout
      it does not accept;
    - the loops of the producer and of the consumer are run against a
      schedule as well, one round per iteration: what the other
      threads do to the queue, to the stop event and, for the
      consumer, to the destination list it was given.  *)

From Stdlib Require Import ZArith QArith Lia.
From stdpp Require Import base list gmap strings pretty.

Local Open Scope Z_scope.

(** Python exceptions raised by the modelled code.  [ValueError]
    carries the message the code gives it; [OverflowError] comes from
    the interpreter, and its message is not the program's. *)
Inductive exn : Type :=
| ValueError (msg : string)
| OverflowError.

(** ** blocking_queue.py *)

Module BlockingQueue.
Section WithItems.

(** Items are opaque to the queue ([Any] in the source). *)
Context {A : Type}.

(** The instance attributes set by [__init__].  [_lock], [_not_full]
    and [_not_empty] carry no data: they are the atomicity structure
    described above. *)
Record t : Type := mk {
  _capacity : Z;
  _queue : list A;
  _shutdown : bool;
  _total_items_added : Z;
  _total_items_removed : Z;
  _total_blocked_puts : Z;
  _total_blocked_gets : Z
}.

(** [BlockingQueue(capacity)]: raises [ValueError] when
    [capacity < 1]. *)
Definition __init__ (capacity : Z) : exn + t :=
  if capacity <? 1 then inl (ValueError "Capacity must be at least 1")
  else inr (mk capacity [] false 0 0 0 0).

(** The default argument of [__init__]. *)
Definition default_capacity : Z := 10.

(** The read-only property [capacity]. *)
Definition capacity (self : t) : Z := _capacity self.

(** [len(self._queue)] *)
Definition len (self : t) : Z := Z.of_nat (length (_queue self)).

(** *** Critical sections of [put] and [get]

    A critical section runs from the head of the [while] loop, with
    the lock held, until the method either returns or calls [wait]. *)
Inductive section_end (R : Type) : Type :=
| Return (r : R) (s : t)
| Wait (s : t).
Arguments Return {R} r s.
Arguments Wait {R} s.

Definition state_of {R : Type} (e : section_end R) : t :=
  match e with
  | Return _ s => s
  | Wait s => s
  end.

(** [put], from the loop head; [blocked] is the local flag of the
    same name. *)
Definition put_section (self : t) (item : A) (blocked : bool)
  : section_end bool :=
  if (len self >=? _capacity self) && negb (_shutdown self) then
    Wait (if blocked then self
          else mk (_capacity self) (_queue self) (_shutdown self)
                  (_total_items_added self) (_total_items_removed self)
                  (_total_blocked_puts self + 1) (_total_blocked_gets self))
  else if _shutdown self then Return false self
  else Return true
         (mk (_capacity self) (_queue self ++ [item]) (_shutdown self)
             (_total_items_added self + 1) (_total_items_removed self)
             (_total_blocked_puts self) (_total_blocked_gets self)).

(** [get], from the loop head.  The result is the pair
    [(success, item)], with [None] for the item on failure. *)
Definition get_section (self : t) (blocked : bool)
  : section_end (bool * option A) :=
  if (len self =? 0) && negb (_shutdown self) then
    Wait (if blocked then self
          else mk (_capacity self) (_queue self) (_shutdown self)
                  (_total_items_added self) (_total_items_removed self)
                  (_total_blocked_puts self) (_total_blocked_gets self + 1))
  else if _shutdown self && (len self =? 0) then Return (false, None) self
  else
    match _queue self with
    | item :: rest =>
        Return (true, Some item)
          (mk (_capacity self) rest (_shutdown self)
              (_total_items_added self) (_total_items_removed self + 1)
              (_total_blocked_puts self) (_total_blocked_gets self))
    | [] => Return (false, None) self (* unreachable: the queue is not empty here *)
    end.

(** *** Methods that are a single critical section *)

Definition size (self : t) : Z := len self.

Definition is_empty (self : t) : bool := len self =? 0.

Definition is_full (self : t) : bool := len self >=? _capacity self.

Definition shutdown (self : t) : t :=
  mk (_capacity self) (_queue self) true
     (_total_items_added self) (_total_items_removed self)
     (_total_blocked_puts self) (_total_blocked_gets self).

Definition is_shutdown (self : t) : bool := _shutdown self.

Definition clear (self : t) : t :=
  mk (_capacity self) [] (_shutdown self)
     (_total_items_added self) (_total_items_removed self)
     (_total_blocked_puts self) (_total_blocked_gets self).

(** The context manager: [__enter__] returns the queue, [__exit__]
    shuts it down. *)
Definition __enter__ (self : t) : t := self.
Definition __exit__ (self : t) : t := shutdown self.

Definition __len__ (self : t) : Z := size self.

(** [get_statistics] returns a dict with string keys. *)
Definition get_statistics (self : t) : gmap string Z :=
  <["total_items_added" := _total_items_added self]>
  (<["total_items_removed" := _total_items_removed self]>
  (<["blocked_puts" := _total_blocked_puts self]>
  (<["blocked_gets" := _total_blocked_gets self]>
  (<["current_size" := len self]>
  (<["capacity" := _capacity self]> ∅))))).

(** *** Other threads

    While a thread waits, or between two of its calls, the other
    threads sharing the queue run critical sections of their own. *)
Inductive action : Type :=
| PutSection (item : A) (blocked : bool)
| GetSection (blocked : bool)
| ShutdownCall
| ClearCall.

Definition act (a : action) (s : t) : t :=
  match a with
  | PutSection item blocked => state_of (put_section s item blocked)
  | GetSection blocked => state_of (get_section s blocked)
  | ShutdownCall => shutdown s
  | ClearCall => clear s
  end.

Definition interfere (acts : list action) (s : t) : t :=
  fold_left (fun s a => act a s) acts s.

(** One return of [Condition.wait]: the sections other threads ran
    while the lock was released, and whether a notification arrived
    before the timeout. *)
Record wakeup : Type := mkWakeup {
  during : list action;
  notified : bool
}.

(** The value returned by [wait(timeout=timeout)].  Without a
    timeout, [wait] only ever returns [True].  A timeout is a number
    of seconds; the code only hands it on to [wait], which rejects
    it (see [wait_raises]) or waits: for the value returned, all that
    matters is whether there is one. *)
Definition wait (timeout : option Q) (w : wakeup) : bool :=
  match timeout with
  | None => true
  | Some _ => notified w
  end.

(** The largest timeout [Lock.acquire] takes, in microseconds:
    [PY_TIMEOUT_MAX] of CPython, which is [LLONG_MAX / 1000] on a
    64-bit POSIX platform.  [threading.TIMEOUT_MAX] is this bound in
    whole seconds. *)
Definition PY_TIMEOUT_MAX : Z := 9223372036854775.

Definition TIMEOUT_MAX : Z := PY_TIMEOUT_MAX / 1000000.

(** [Condition.wait(timeout)] hands a positive timeout on to
    [Lock.acquire], which raises [OverflowError] when the timeout,
    taken in microseconds, exceeds [PY_TIMEOUT_MAX]; this happens as
    soon as [wait] is called, so [wait] above is the value returned
    by a call that does return.  A timeout of zero or less is a
    non-blocking attempt and is never rejected.  Timeouts are numbers
    of seconds, taken as rationals. *)
Definition wait_raises (timeout : option Q) : option exn :=
  match timeout with
  | None => None
  | Some seconds =>
      if Qle_bool (seconds * 1000000) (inject_Z PY_TIMEOUT_MAX) then None
      else Some OverflowError
  end.

(** *** The blocking methods *)

(** A call either returns, or is still parked in [wait] when the
    schedule ends, or is left by an exception raised in [wait]. *)
Inductive outcome (R : Type) : Type :=
| Returned (r : R) (s : t)
| Blocked (s : t)
| Raised (e : exn) (s : t).
Arguments Returned {R} r s.
Arguments Blocked {R} s.
Arguments Raised {R} e s.

Definition final {R : Type} (o : outcome R) : t :=
  match o with
  | Returned _ s => s
  | Blocked s => s
  | Raised _ s => s
  end.

Fixpoint put_loop (self : t) (item : A) (timeout : option Q)
    (blocked : bool) (env : list wakeup) : outcome bool :=
  match put_section self item blocked with
  | Return r s => Returned r s
  | Wait s =>
      match wait_raises timeout with
      | Some e => Raised e s
      | None =>
          match env with
          | [] => Blocked s
          | w :: env' =>
              let s' := interfere (during w) s in
              if wait timeout w then put_loop s' item timeout true env'
              else Returned false s'
          end
      end
  end.

Definition put (self : t) (item : A) (timeout : option Q)
    (env : list wakeup) : outcome bool :=
  put_loop self item timeout false env.

Fixpoint get_loop (self : t) (timeout : option Q)
    (blocked : bool) (env : list wakeup) : outcome (bool * option A) :=
  match get_section self blocked with
  | Return r s => Returned r s
  | Wait s =>
      match wait_raises timeout with
      | Some e => Raised e s
      | None =>
          match env with
          | [] => Blocked s
          | w :: env' =>
              let s' := interfere (during w) s in
              if wait timeout w then get_loop s' timeout true env'
              else Returned (false, None) s'
          end
      end
  end.

Definition get (self : t) (timeout : option Q) (env : list wakeup)
  : outcome (bool * option A) :=
  get_loop self timeout false env.

(** The schedule seen by a caller that is alone on the queue: nobody
    ever notifies, so a wait with a timeout expires and a wait
    without one never returns. *)
Definition alone (timeout : option Q) : list wakeup :=
  match timeout with
  | None => []
  | Some _ => [mkWakeup [] false]
  end.

(** *** Sequences of calls

    A thread issuing calls one after the other.  Each blocking call
    comes with the schedule of its waits; a call that stays parked,
    or that raises, ends the sequence, since the thread never gets to
    the next one. *)
Inductive call : Type :=
| Put (item : A) (timeout : option Q) (env : list wakeup)
| Get (timeout : option Q) (env : list wakeup)
| Shutdown
| Clear.

Inductive response : Type :=
| PutResult (success : bool)
| GetResult (r : bool * option A)
| NoResult.

Definition perform (c : call) (s : t) : outcome response :=
  match c with
  | Put item timeout env =>
      match put s item timeout env with
      | Returned r s' => Returned (PutResult r) s'
      | Blocked s' => Blocked s'
      | Raised e s' => Raised e s'
      end
  | Get timeout env =>
      match get s timeout env with
      | Returned r s' => Returned (GetResult r) s'
      | Blocked s' => Blocked s'
      | Raised e s' => Raised e s'
      end
  | Shutdown => Returned NoResult (shutdown s)
  | Clear => Returned NoResult (clear s)
  end.

Fixpoint run (calls : list call) (s : t) : list (outcome response) :=
  match calls with
  | [] => []
  | c :: calls' =>
      match perform c s with
      | Returned r s' => Returned r s' :: run calls' s'
      | Blocked s' => [Blocked s']
      | Raised e s' => [Raised e s']
      end
  end.

End WithItems.

Arguments t : clear implicits.
Arguments section_end : clear implicits.
Arguments action : clear implicits.
Arguments wakeup : clear implicits.
Arguments outcome : clear implicits.
Arguments call : clear implicits.
Arguments response : clear implicits.
Arguments __init__ : clear implicits.
Arguments Return {A R}.
Arguments Wait {A R}.
Arguments Returned {A R}.
Arguments Blocked {A R}.
Arguments Raised {A R}.

End BlockingQueue.

(** ** producer.py *)

Module Producer.
Section WithItems.

Context {A : Type}.

(** The producer's own state.  [_source] is the iterator over the
    source: the items not read yet.  [_stop_event] is the flag of the
    [threading.Event].  The queue is shared and is passed alongside.
    [_delay] and [_on_produce] are left out: sleeping changes no
    state, and the callback is taken to be an observer that returns
    normally. *)
Record t : Type := mk {
  _source : list A;
  _items_produced : Z;
  _running : bool;
  _stop_event : bool
}.

Definition __init__ (source : list A) : t := mk source 0 false false.

Definition is_running (self : t) : bool := _running self.

Definition stop (self : t) : t :=
  mk (_source self) (_items_produced self) (_running self) true.

(** What the rest of the program does during one iteration of the
    loop: the sections other threads run before [put] takes the
    lock, the waits inside [put], and whether some thread calls
    [stop()] before the next check of the event. *)
Record round : Type := mkRound {
  before_put : list (BlockingQueue.action A);
  waits : list (BlockingQueue.wakeup A);
  stop_called : bool
}.

(** Why the loop was left. *)
Inductive exit : Type :=
| SourceExhausted
| StopSignal
| PutRejected.

(** A run has finished, or is still going on when the schedule ends,
    or was left by an exception. *)
Inductive outcome : Type :=
| Finished (why : exit) (p : t) (q : BlockingQueue.t A)
| Unfinished (p : t) (q : BlockingQueue.t A)
| Raised (e : exn) (p : t) (q : BlockingQueue.t A).

(** The stop event after the iteration scheduled by [r]: set if it
    was set before, or if [stop()] was called meanwhile. *)
Definition heard (self : t) (r : round) : t :=
  mk (_source self) (_items_produced self) (_running self)
     (_stop_event self || stop_called r).

(** The [for] loop of [run].  [for item in self._source] first reads
    the next item; the body then checks the stop event. *)
Fixpoint loop (self : t) (q : BlockingQueue.t A) (sched : list round)
    {struct sched} : outcome :=
  match _source self with
  | [] => Finished SourceExhausted self q
  | item :: rest =>
      let self := mk rest (_items_produced self) (_running self)
                     (_stop_event self) in
      if _stop_event self then Finished StopSignal self q
      else
        match sched with
        | [] => Unfinished self q
        | r :: sched' =>
            match BlockingQueue.put
                    (BlockingQueue.interfere (before_put r) q)
                    item None (waits r) with
            | BlockingQueue.Blocked q' => Unfinished (heard self r) q'
            | BlockingQueue.Raised e q' => Raised e (heard self r) q'
            | BlockingQueue.Returned false q' =>
                Finished PutRejected (heard self r) q'
            | BlockingQueue.Returned true q' =>
                loop (mk rest (_items_produced self + 1) (_running self)
                         (_stop_event self || stop_called r))
                     q' sched'
            end
        end
  end.

(** [run]: [_running] is set on entry and reset in the [finally]
    clause. *)
Definition run (self : t) (q : BlockingQueue.t A) (sched : list round)
  : outcome :=
  match loop (mk (_source self) (_items_produced self) true
                 (_stop_event self)) q sched with
  | Finished why p q' =>
      Finished why
        (mk (_source p) (_items_produced p) false (_stop_event p)) q'
  | Unfinished p q' => Unfinished p q'
  | Raised e p q' =>
      Raised e
        (mk (_source p) (_items_produced p) false (_stop_event p)) q'
  end.

(** The round of a producer that is alone on the queue. *)
Definition quiet : round := mkRound [] [] false.

End WithItems.

Arguments t : clear implicits.
Arguments round : clear implicits.
Arguments outcome : clear implicits.

End Producer.

(** ** consumer.py *)

Module Consumer.
Section WithItems.

Context {A : Type}.

(** The consumer's own state.  [_destination] is the list consumed
    items are appended to.  It is the caller's object when one is
    passed to the constructor, so other threads may hold it as well
    (several consumers are given the same destination): the field
    gives the contents of that object as of the consumer's latest
    step, and the schedule says what the others appended to it in
    between.  [_timeout] is handed to every [get]. *)
Record t : Type := mk {
  _destination : list A;
  _timeout : option Q;
  _items_consumed : Z;
  _running : bool;
  _stop_event : bool
}.

Definition default_timeout : option Q := Some 1%Q.

Definition __init__ (destination : option (list A)) (timeout : option Q)
  : t :=
  mk (match destination with Some d => d | None => [] end)
     timeout 0 false false.

Definition items_consumed (self : t) : Z := _items_consumed self.
Definition is_running (self : t) : bool := _running self.
Definition destination (self : t) : list A := _destination self.
Definition get_results (self : t) : list A := _destination self.

Definition stop (self : t) : t :=
  mk (_destination self) (_timeout self) (_items_consumed self)
     (_running self) true.

(** What the rest of the program does during one iteration: the
    sections other threads run before each of the three places where
    the consumer takes the queue's lock ([get], [is_shutdown],
    [is_empty]), the waits inside [get], the items other holders of
    the destination append to it before the consumer's own [append],
    and whether some thread calls [stop()] before the next check of
    the event. *)
Record round : Type := mkRound {
  before_get : list (BlockingQueue.action A);
  waits : list (BlockingQueue.wakeup A);
  before_is_shutdown : list (BlockingQueue.action A);
  before_is_empty : list (BlockingQueue.action A);
  appended_by_others : list A;
  stop_called : bool
}.

Inductive exit : Type :=
| StopSignal
| ShutdownAndEmpty.

(** A run has finished, or is still going on when the schedule ends,
    or was left by an exception. *)
Inductive outcome : Type :=
| Finished (why : exit) (c : t) (q : BlockingQueue.t A)
| Unfinished (c : t) (q : BlockingQueue.t A)
| Raised (e : exn) (c : t) (q : BlockingQueue.t A).

(** The consumer after an iteration scheduled by [r] in which it
    appended nothing itself: the destination holds what the others
    appended, and the stop event is set if it was set before or if
    [stop()] was called meanwhile. *)
Definition heard (self : t) (r : round) : t :=
  mk (_destination self ++ appended_by_others r) (_timeout self)
     (_items_consumed self) (_running self)
     (_stop_event self || stop_called r).

(** The [while] loop of [run]. *)
Fixpoint loop (self : t) (q : BlockingQueue.t A) (sched : list round)
    {struct sched} : outcome :=
  if _stop_event self then Finished StopSignal self q
  else
    match sched with
    | [] => Unfinished self q
    | r :: sched' =>
        match BlockingQueue.get
                (BlockingQueue.interfere (before_get r) q)
                (_timeout self) (waits r) with
        | BlockingQueue.Blocked q' => Unfinished (heard self r) q'
        | BlockingQueue.Raised e q' => Raised e (heard self r) q'
        | BlockingQueue.Returned (false, _) q1 =>
            let q2 := BlockingQueue.interfere (before_is_shutdown r) q1 in
            if BlockingQueue.is_shutdown q2 then
              let q3 := BlockingQueue.interfere (before_is_empty r) q2 in
              if BlockingQueue.is_empty q3
              then Finished ShutdownAndEmpty (heard self r) q3
              else loop (heard self r) q3 sched'
            else loop (heard self r) q2 sched'
        | BlockingQueue.Returned (true, item) q1 =>
            loop (mk (match item with
                      | Some x =>
                          (_destination self ++ appended_by_others r)
                          ++ [x]
                      | None => _destination self ++ appended_by_others r
                          (* [get] never succeeds without an item *)
                      end)
                     (_timeout self) (_items_consumed self + 1)
                     (_running self) (_stop_event self || stop_called r))
                 q1 sched'
        end
    end.

Definition run (self : t) (q : BlockingQueue.t A) (sched : list round)
  : outcome :=
  match loop (mk (_destination self) (_timeout self)
                 (_items_consumed self) true (_stop_event self))
             q sched with
  | Finished why c q' =>
      Finished why
        (mk (_destination c) (_timeout c) (_items_consumed c) false
            (_stop_event c)) q'
  | Unfinished c q' => Unfinished c q'
  | Raised e c q' =>
      Raised e
        (mk (_destination c) (_timeout c) (_items_consumed c) false
            (_stop_event c)) q'
  end.

(** The round of a consumer that is alone on the queue and on its
    destination: every wait inside [get] expires, if it can. *)
Definition quiet (timeout : option Q) : round :=
  mkRound [] (BlockingQueue.alone timeout) [] [] [] false.

End WithItems.

Arguments t : clear implicits.
Arguments round : clear implicits.
Arguments outcome : clear implicits.

End Consumer.

(** [ItemGenerator] in producer.py *)

Module ItemGenerator.
Section WithItems.

Context {B : Type}.

Record t : Type := mk {
  _count : Z;
  _generator_func : Z -> B
}.

(** [ItemGenerator(count, generator_func)], with a generator
    function given. *)
Definition __init__ (count : Z) (generator_func : Z -> B) : t :=
  mk count generator_func.

(** [__iter__] yields [generator_func(i)] for [i] in
    [range(count)]; every call starts a new iteration. *)
Definition __iter__ (self : t) : list B :=
  _generator_func self <$> seqZ 0 (_count self).

Definition __len__ (self : t) : Z := _count self.

End WithItems.

Arguments t : clear implicits.

(** The generator function used when none is given:
    [lambda i: f"Item-{i}"]. *)
Definition default_generator_func (i : Z) : string :=
  "Item-" +:+ pretty i.

(** [ItemGenerator(count)] *)
Definition with_default (count : Z) : t string :=
  __init__ count default_generator_func.

End ItemGenerator.

(** [DestinationContainer] in consumer.py

    The container owns a Python list, which is a mutable object:
    [get_all] hands out a new list, not the one the container keeps
    appending to.  To tell the two apart, lists live in a heap that
    maps the identity of each list object to its contents.  Every
    method runs under the container's lock, so it is one step on the
    heap. *)

Module DestinationContainer.
Section WithItems.

Context {A : Type}.

Definition loc : Type := positive.

Record t : Type := mk {
  _items : loc
}.

(** A new list object holding [xs]. *)
Definition alloc (xs : list A) (h : gmap loc (list A))
  : loc * gmap loc (list A) :=
  let l := fresh (dom h) in (l, <[l := xs]> h).

(** The contents of the list object [l]. *)
Definition contents (l : loc) (h : gmap loc (list A)) : list A :=
  default [] (h !! l).

Definition __init__ (h : gmap loc (list A)) : t * gmap loc (list A) :=
  let '(l, h') := alloc [] h in (mk l, h').

(** [self._items.append(item)] changes the list in place. *)
Definition append (self : t) (item : A) (h : gmap loc (list A))
  : gmap loc (list A) :=
  alter (fun xs => xs ++ [item]) (_items self) h.

(** [list(self._items)] builds a new list. *)
Definition get_all (self : t) (h : gmap loc (list A))
  : loc * gmap loc (list A) :=
  alloc (contents (_items self) h) h.

Definition size (self : t) (h : gmap loc (list A)) : Z :=
  Z.of_nat (length (contents (_items self) h)).

(** [self._items.clear()] empties the list in place. *)
Definition clear (self : t) (h : gmap loc (list A)) : gmap loc (list A) :=
  alter (fun _ => []) (_items self) h.

Definition __len__ (self : t) (h : gmap loc (list A)) : Z := size self h.

End WithItems.

Arguments t : clear implicits.

End DestinationContainer.

(** * Specification vocabulary *)

Section Vocabulary.

Context {A : Type}.
Import BlockingQueue.

(** The size stays within the capacity. *)
Definition bounded (s : t A) : Prop := 0 <= size s <= capacity s.

(** The counters account for the buffer. *)
Definition balanced (s : t A) : Prop :=
  _total_items_added s - _total_items_removed s = size s.

(** Schedules are restricted by saying which critical sections the
    other threads may run. *)
Definition permitted_env (permitted : action A -> bool)
    (env : list (wakeup A)) : bool :=
  forallb (fun w => forallb permitted (during w)) env.

Definition permitted_call (permitted : action A -> bool) (c : call A)
  : bool :=
  match c with
  | Put _ _ env => permitted_env permitted env
  | Get _ env => permitted_env permitted env
  | Shutdown => permitted ShutdownCall
  | Clear => permitted ClearCall
  end.

Definition anything (a : action A) : bool := true.

Definition not_clear (a : action A) : bool :=
  match a with
  | ClearCall => false
  | _ => true
  end.

(** Nobody clears the queue: neither the other threads during a
    wait, nor the calling thread. *)
Definition clear_free (acts : list (action A)) : bool :=
  forallb not_clear acts.

Definition clear_free_calls (calls : list (call A)) : bool :=
  forallb (permitted_call not_clear) calls.

(** The items a sequence of critical sections appends to the buffer,
    and the items it hands out, each in the order in which it
    happens. *)
Definition accepts (a : action A) (s : t A) : list A :=
  match a with
  | PutSection item blocked =>
      match put_section s item blocked with
      | Return true _ => [item]
      | _ => []
      end
  | _ => []
  end.

Definition delivers (a : action A) (s : t A) : list A :=
  match a with
  | GetSection blocked =>
      match get_section s blocked with
      | Return (true, Some item) _ => [item]
      | _ => []
      end
  | _ => []
  end.

Fixpoint accepted (acts : list (action A)) (s : t A) : list A :=
  match acts with
  | [] => []
  | a :: acts' => accepts a s ++ accepted acts' (act a s)
  end.

Fixpoint delivered (acts : list (action A)) (s : t A) : list A :=
  match acts with
  | [] => []
  | a :: acts' => delivers a s ++ delivered acts' (act a s)
  end.

(** The statistics report a size that is the difference of the two
    item counters. *)
Definition reports_balance (stats : gmap string Z) : Prop :=
  exists added removed current,
    stats !! "total_items_added" = Some added /\
    stats !! "total_items_removed" = Some removed /\
    stats !! "current_size" = Some current /\
    current = added - removed.

(** The answers of a sequence of calls. *)
Definition answers (os : list (outcome A (response A)))
  : list (option (response A)) :=
  map (fun o => match o with
                | Returned r _ => Some r
                | Blocked _ => None
                | Raised _ _ => None
                end) os.

End Vocabulary.

(** Further vocabulary, for runs of the producer and the consumer and
    for schedules in which the other threads are of one kind. *)

Section RunVocabulary.

Context {A : Type}.
Import BlockingQueue.


(** The other threads only produce: they neither get nor clear. *)
Definition only_producers (a : action A) : bool :=
  match a with
  | GetSection _ | ClearCall => false
  | _ => true
  end.

Definition no_puts (a : action A) : bool :=
  match a with
  | PutSection _ _ => false
  | _ => true
  end.

Definition no_gets (a : action A) : bool :=
  match a with
  | GetSection _ => false
  | _ => true
  end.

(** The four counters after a critical section, compared with
    before. *)
Definition counters_grown (s s' : t A) : Prop :=
  _total_items_added s <= _total_items_added s' /\
  _total_items_removed s <= _total_items_removed s' /\
  _total_blocked_puts s <= _total_blocked_puts s' /\
  _total_blocked_gets s <= _total_blocked_gets s'.

(** Nothing is counted as removed that was not added, and the items
    that were added and not removed cover the buffer. *)
Definition accounted (s : t A) : Prop :=
  0 <= _total_items_removed s /\
  size s <= _total_items_added s - _total_items_removed s /\
  0 <= _total_blocked_puts s /\
  0 <= _total_blocked_gets s.

(** Between the states [s] and [s'] the items [ins] went into the back
    of the buffer and the items [outs] came out of its front, nothing
    else happened to the buffer, and the two item counters counted
    them. *)
Definition moved (s s' : t A) (ins outs : list A) : Prop :=
  _queue s ++ ins = outs ++ _queue s' /\
  _total_items_added s' = _total_items_added s + Z.of_nat (length ins) /\
  _total_items_removed s' =
    _total_items_removed s + Z.of_nat (length outs).

(** The items a call of [put] or [get] itself moved. *)
Definition put_moved (item : A) (o : outcome A bool) : list A :=
  match o with
  | Returned true _ => [item]
  | _ => []
  end.


(** Some other thread calls [shutdown()]. *)
Definition shuts_down (acts : list (action A)) : bool :=
  existsb (fun a => match a with ShutdownCall => true | _ => false end)
          acts.


(** No other thread appends to the consumer's destination. *)
Definition sink_untouched (r : Consumer.round A) : bool :=
  match Consumer.appended_by_others r with
  | [] => true
  | _ :: _ => false
  end.

(** The threads that append to a destination are the consumers, which
    are also the threads that run [get]: where the other threads may
    not run [get], nobody else appends to the consumer's
    destination. *)
Definition permitted_consumer_round (permitted : action A -> bool)
    (r : Consumer.round A) : bool :=
  forallb permitted (Consumer.before_get r)
  && permitted_env permitted (Consumer.waits r)
  && forallb permitted (Consumer.before_is_shutdown r)
  && forallb permitted (Consumer.before_is_empty r)
  && (permitted (GetSection false) || sink_untouched r).

(** Where a run of the producer, or of the consumer, stands when the
    schedule ends, finished or not. *)
Definition producer_end (o : Producer.outcome A)
  : Producer.t A * t A :=
  match o with
  | Producer.Finished _ p q => (p, q)
  | Producer.Unfinished p q => (p, q)
  | Producer.Raised _ p q => (p, q)
  end.


End RunVocabulary.

(** * The queue *)

Section QueueFacts.

Context {A : Type}.
Import BlockingQueue.

Implicit Types (s self : t A) (item : A) (env : list (wakeup A)).

(** ** Shapes of the critical sections *)

Lemma put_section_full self item blocked :
  is_full self = true -> _shutdown self = false ->
  put_section self item blocked =
    Wait (if blocked then self
          else mk (_capacity self) (_queue self) false
                  (_total_items_added self) (_total_items_removed self)
                  (_total_blocked_puts self + 1) (_total_blocked_gets self)).
Proof.
  unfold is_full, put_section. intros -> Hs. rewrite Hs. simpl.
  destruct blocked; reflexivity.
Qed.

Lemma put_section_shutdown self item blocked :
  _shutdown self = true -> put_section self item blocked = Return false self.
Proof.
  unfold put_section. intros ->. rewrite andb_false_r. reflexivity.
Qed.

Lemma put_section_room self item blocked :
  is_full self = false -> _shutdown self = false ->
  put_section self item blocked =
    Return true
      (mk (_capacity self) (_queue self ++ [item]) false
          (_total_items_added self + 1) (_total_items_removed self)
          (_total_blocked_puts self) (_total_blocked_gets self)).
Proof.
  unfold is_full, put_section. intros -> Hs. rewrite Hs. reflexivity.
Qed.

Lemma len_nil self : _queue self = [] -> len self = 0.
Proof. unfold len. intros ->. reflexivity. Qed.

Lemma len_cons self x rest :
  _queue self = x :: rest -> (len self =? 0) = false.
Proof.
  unfold len. intros ->. apply Z.eqb_neq. simpl length. lia.
Qed.

Lemma get_section_empty self blocked :
  _queue self = [] -> _shutdown self = false ->
  get_section self blocked =
    Wait (if blocked then self
          else mk (_capacity self) [] false
                  (_total_items_added self) (_total_items_removed self)
                  (_total_blocked_puts self) (_total_blocked_gets self + 1)).
Proof.
  intros Hq Hs. unfold get_section. rewrite (len_nil _ Hq), Hq, Hs. simpl.
  destruct blocked; reflexivity.
Qed.

Lemma get_section_drained self blocked :
  _queue self = [] -> _shutdown self = true ->
  get_section self blocked = Return (false, None) self.
Proof.
  intros Hq Hs. unfold get_section. rewrite (len_nil _ Hq), Hs. reflexivity.
Qed.

Lemma get_section_cons self blocked x rest :
  _queue self = x :: rest ->
  get_section self blocked =
    Return (true, Some x)
      (mk (_capacity self) rest (_shutdown self)
          (_total_items_added self) (_total_items_removed self + 1)
          (_total_blocked_puts self) (_total_blocked_gets self)).
Proof.
  intros Hq. unfold get_section.
  rewrite (len_cons _ _ _ Hq), Hq, andb_false_r. reflexivity.
Qed.

(** The last branch of [get_section] is never taken: [popleft] is
    only reached on a non-empty buffer. *)
Lemma get_section_success self blocked r s :
  get_section self blocked = Return r s ->
  r = (false, None) /\ s = self /\ _queue self = [] /\ _shutdown self = true
  \/ exists x, r = (true, Some x) /\ _queue self = x :: _queue s.
Proof.
  destruct (_queue self) as [|x rest] eqn:Hq.
  - destruct (_shutdown self) eqn:Hs.
    + rewrite (get_section_drained _ _ Hq Hs). intros [= <- <-]. left. auto.
    + rewrite (get_section_empty _ _ Hq Hs). discriminate.
  - rewrite (get_section_cons _ _ _ _ Hq). intros [= <- <-].
    right. exists x. split; reflexivity.
Qed.

(** A call whose first critical section returns does not wait, so
    the schedule plays no role. *)
Lemma put_without_waiting self item timeout env r s :
  put_section self item false = Return r s ->
  put self item timeout env = Returned r s.
Proof.
  intros H. unfold put. destruct env; simpl; rewrite H; reflexivity.
Qed.

Lemma get_without_waiting self timeout env r s :
  get_section self false = Return r s ->
  get self timeout env = Returned r s.
Proof.
  intros H. unfold get. destruct env; simpl; rewrite H; reflexivity.
Qed.


Lemma is_empty_nil self : is_empty self = true -> _queue self = [].
Proof.
  unfold is_empty, len. intros H. apply Z.eqb_eq in H.
  destruct (_queue self); [reflexivity | simpl in H; lia].
Qed.


(** A call is left by an exception only from a wait, hence on a full
    queue for [put] and on an empty one for [get], not shut down, and
    only with a timeout that [wait] rejects. *)
Lemma put_loop_raised env : forall self item timeout blocked e s,
  put_loop self item timeout blocked env = Raised e s ->
  wait_raises timeout = Some e /\
  is_full s = true /\ _shutdown s = false.
Proof.
  induction env as [|w env IH]; intros self item timeout blocked e s;
    cbn [put_loop];
    (destruct (_shutdown self) eqn:Hshut;
     [ rewrite (put_section_shutdown self item blocked Hshut);
       discriminate
     | destruct (is_full self) eqn:Hfull;
       [ rewrite (put_section_full self item blocked Hfull Hshut)
       | rewrite (put_section_room self item blocked Hfull Hshut);
         discriminate ] ]);
    destruct (wait_raises timeout) as [e1|] eqn:Hraise;
    try discriminate;
    try (intros [= <- <-]; split; [reflexivity|];
         destruct blocked; split;
         first [exact Hfull | exact Hshut | reflexivity]).
  destruct (wait timeout w); [|discriminate].
  intros H. apply IH in H as (Ht & _). congruence.
Qed.


End QueueFacts.

(** ** Properties kept by every critical section

    A property of the queue state that every permitted critical section
    preserves is preserved by whole calls under any schedule, and by
    sequences of calls. *)

Section Preservation.

Context {A : Type}.
Import BlockingQueue.

Variable P : t A -> Prop.
Variable permitted : action A -> bool.

Hypothesis permitted_put :
  forall item blocked, permitted (PutSection item blocked) = true.
Hypothesis permitted_get :
  forall blocked, permitted (GetSection blocked) = true.
Hypothesis kept : forall a s, permitted a = true -> P s -> P (act a s).

Lemma interfere_kept acts s :
  forallb permitted acts = true -> P s -> P (interfere acts s).
Proof.
  revert s. induction acts as [|a acts IH]; intros s Hok Hs; simpl in *.
  - exact Hs.
  - apply andb_true_iff in Hok as [Ha Hacts].
    apply IH; [exact Hacts | apply kept; assumption].
Qed.

Lemma put_loop_kept env : forall s item timeout blocked,
  permitted_env permitted env = true -> P s ->
  P (final (put_loop s item timeout blocked env)).
Proof.
  induction env as [|w env IH]; intros s item timeout blocked Hok Hs;
    simpl;
    pose proof (kept (PutSection item blocked) s
                  (permitted_put item blocked) Hs) as Hstep;
    simpl in Hstep;
    destruct (put_section s item blocked) as [r s1|s1]; simpl in *;
    try exact Hstep;
    destruct (wait_raises timeout); simpl; try exact Hstep.
  apply andb_true_iff in Hok as [Hw Henv].
  pose proof (interfere_kept (during w) s1 Hw Hstep) as Hs2.
  destruct (wait timeout w); [apply IH; assumption | exact Hs2].
Qed.

Lemma get_loop_kept env : forall s timeout blocked,
  permitted_env permitted env = true -> P s ->
  P (final (get_loop s timeout blocked env)).
Proof.
  induction env as [|w env IH]; intros s timeout blocked Hok Hs;
    simpl;
    pose proof (kept (GetSection blocked) s (permitted_get blocked) Hs)
      as Hstep;
    simpl in Hstep;
    destruct (get_section s blocked) as [r s1|s1]; simpl in *;
    try exact Hstep;
    destruct (wait_raises timeout); simpl; try exact Hstep.
  apply andb_true_iff in Hok as [Hw Henv].
  pose proof (interfere_kept (during w) s1 Hw Hstep) as Hs2.
  destruct (wait timeout w); [apply IH; assumption | exact Hs2].
Qed.

Lemma perform_kept c s :
  permitted_call permitted c = true -> P s -> P (final (perform c s)).
Proof.
  intros Hok Hs. destruct c as [item timeout env|timeout env| |]; simpl in *.
  - pose proof (put_loop_kept env s item timeout false Hok Hs) as H.
    unfold put. destruct (put_loop s item timeout false env); exact H.
  - pose proof (get_loop_kept env s timeout false Hok Hs) as H.
    unfold get. destruct (get_loop s timeout false env); exact H.
  - exact (kept ShutdownCall s Hok Hs).
  - exact (kept ClearCall s Hok Hs).
Qed.

Lemma run_kept calls : forall s,
  forallb (permitted_call permitted) calls = true -> P s ->
  Forall (fun o => P (final o)) (run calls s).
Proof.
  induction calls as [|c calls IH]; intros s Hok Hs; simpl.
  - constructor.
  - simpl in Hok. apply andb_true_iff in Hok as [Hc Hcalls].
    pose proof (perform_kept c s Hc Hs) as H.
    destruct (perform c s) as [r s1|s1|e s1]; simpl in H.
    + constructor; [exact H | apply IH; assumption].
    + constructor; [exact H | constructor].
    + constructor; [exact H | constructor].
Qed.

End Preservation.

(** ** Case analysis on a critical section *)

Ltac put_cases s item blocked :=
  let Hs := fresh "Hshut" in
  let Hf := fresh "Hfull" in
  destruct (BlockingQueue._shutdown s) eqn:Hs;
  [ rewrite (put_section_shutdown s item blocked Hs)
  | destruct (BlockingQueue.is_full s) eqn:Hf;
    [ rewrite (put_section_full s item blocked Hf Hs)
    | rewrite (put_section_room s item blocked Hf Hs) ] ].

Ltac get_cases s blocked :=
  let Hs := fresh "Hshut" in
  let Hq := fresh "Hbuf" in
  let x := fresh "x" in
  let rest := fresh "rest" in
  destruct (BlockingQueue._queue s) as [|x rest] eqn:Hq;
  [ destruct (BlockingQueue._shutdown s) eqn:Hs;
    [ rewrite (get_section_drained s blocked Hq Hs)
    | rewrite (get_section_empty s blocked Hq Hs) ]
  | rewrite (get_section_cons s blocked x rest Hq) ].

Section QueueInvariants.

Context {A : Type}.
Import BlockingQueue.

Implicit Types (s self : t A) (item : A) (a : action A).

Lemma is_full_false s : is_full s = false -> len s < _capacity s.
Proof. unfold is_full. rewrite Z.geb_leb. apply Z.leb_gt. Qed.

Lemma is_full_true s : is_full s = true -> _capacity s <= len s.
Proof. unfold is_full. apply Z.geb_le. Qed.

Lemma act_capacity a s : _capacity (act a s) = _capacity s.
Proof.
  destruct a as [item blocked|blocked| |]; simpl; try reflexivity.
  - put_cases s item blocked; destruct blocked; reflexivity.
  - get_cases s blocked; destruct blocked; reflexivity.
Qed.

Lemma act_latched a s : _shutdown s = true -> _shutdown (act a s) = true.
Proof.
  intros H. destruct a as [item blocked|blocked| |]; simpl; try exact H.
  - rewrite (put_section_shutdown s item blocked H). exact H.
  - get_cases s blocked; simpl; first [assumption | discriminate].
  - reflexivity.
Qed.

Lemma act_bounded a s : bounded s -> bounded (act a s).
Proof.
  unfold bounded, size, capacity, len.
  intros H. destruct a as [item blocked|blocked| |]; simpl; try exact H.
  - put_cases s item blocked; simpl; try exact H.
    + destruct blocked; exact H.
    + apply is_full_false in Hfull. unfold len in Hfull.
      rewrite length_app. simpl length. lia.
  - get_cases s blocked; simpl; rewrite ?Hbuf in *; try exact H.
    + destruct blocked; simpl; rewrite ?Hbuf; exact H.
    + simpl length in H. lia.
  - lia.
Qed.

Lemma act_balanced a s :
  not_clear a = true -> balanced s -> balanced (act a s).
Proof.
  unfold balanced, size, len.
  intros Ha H. destruct a as [item blocked|blocked| |]; simpl;
    try exact H; try discriminate.
  - put_cases s item blocked; simpl; try exact H.
    + destruct blocked; exact H.
    + rewrite length_app. simpl length. lia.
  - get_cases s blocked; simpl; rewrite ?Hbuf in *; try exact H.
    + destruct blocked; simpl; rewrite ?Hbuf; exact H.
    + simpl length in H. lia.
Qed.

Lemma anything_acts (acts : list (action A)) :
  forallb anything acts = true.
Proof. induction acts; [reflexivity | assumption]. Qed.

Lemma anything_env (env : list (wakeup A)) :
  permitted_env anything env = true.
Proof.
  induction env as [|w env IH]; [reflexivity|].
  unfold permitted_env in *. simpl. rewrite IH, anything_acts. reflexivity.
Qed.

Lemma anything_calls (calls : list (call A)) :
  forallb (permitted_call anything) calls = true.
Proof.
  induction calls as [|c calls IH]; [reflexivity|].
  simpl. rewrite IH, andb_true_r.
  destruct c; simpl; try reflexivity; apply anything_env.
Qed.

(** One critical section extends the history of the buffer at the
    back by what it accepts and shortens it at the front by what it
    delivers. *)
Lemma act_history a s :
  not_clear a = true ->
  _queue s ++ accepts a s = delivers a s ++ _queue (act a s).
Proof.
  intros Ha. destruct a as [item blocked|blocked| |]; simpl;
    try discriminate; try apply app_nil_r.
  - put_cases s item blocked; simpl; try apply app_nil_r.
    + destruct blocked; apply app_nil_r.
    + reflexivity.
  - get_cases s blocked; simpl; rewrite ?Hbuf, ?app_nil_r;
      try reflexivity.
    destruct blocked; simpl; rewrite ?Hbuf; reflexivity.
Qed.

Lemma interfere_history acts : forall s,
  clear_free acts = true ->
  _queue s ++ accepted acts s =
  delivered acts s ++ _queue (interfere acts s).
Proof.
  induction acts as [|a acts IH]; intros s Hok; simpl.
  - apply app_nil_r.
  - unfold clear_free in Hok. simpl in Hok.
    apply andb_true_iff in Hok as [Ha Hacts].
    rewrite app_assoc, (act_history a s Ha), <- !app_assoc.
    f_equal. apply IH. exact Hacts.
Qed.

Lemma init_inr (c : Z) (q0 : t A) :
  __init__ A c = inr q0 -> 1 <= c /\ q0 = mk c [] false 0 0 0 0.
Proof.
  unfold __init__. destruct (Z.ltb_spec c 1); [discriminate|].
  intros [= <-]. split; [assumption | reflexivity].
Qed.

Lemma statistics_balance s :
  balanced s -> reports_balance (get_statistics s).
Proof.
  intros H. exists (_total_items_added s), (_total_items_removed s), (len s).
  repeat split. symmetry. exact H.
Qed.

End QueueInvariants.

(** ** Filling and draining by a thread that is alone *)

Section FillAndDrain.

Context {A : Type}.
Import BlockingQueue.

Implicit Types (s : t A) (xs ys : list A) (rest : list (call A)).

Lemma run_put_room s x timeout env rest :
  is_full s = false -> _shutdown s = false ->
  run (Put x timeout env :: rest) s =
    let s' := mk (_capacity s) (_queue s ++ [x]) false
                 (_total_items_added s + 1) (_total_items_removed s)
                 (_total_blocked_puts s) (_total_blocked_gets s) in
    Returned (PutResult true) s' :: run rest s'.
Proof.
  intros Hf Hs. cbn [run perform].
  rewrite (put_without_waiting s x timeout env _ _
             (put_section_room s x false Hf Hs)).
  reflexivity.
Qed.

Lemma run_get_cons s x ys timeout env rest :
  _queue s = x :: ys ->
  run (Get timeout env :: rest) s =
    let s' := mk (_capacity s) ys (_shutdown s)
                 (_total_items_added s) (_total_items_removed s + 1)
                 (_total_blocked_puts s) (_total_blocked_gets s) in
    Returned (GetResult (true, Some x)) s' :: run rest s'.
Proof.
  intros Hq. cbn [run perform].
  rewrite (get_without_waiting s timeout env _ _
             (get_section_cons s false x ys Hq)).
  reflexivity.
Qed.

(** Puts that fit are all accepted, in order. *)
Lemma run_puts xs : forall s rest,
  _shutdown s = false ->
  len s + Z.of_nat (length xs) <= _capacity s ->
  exists s',
    answers (run (map (fun x => Put x None []) xs ++ rest) s) =
      map (fun _ => Some (PutResult true)) xs ++ answers (run rest s') /\
    _queue s' = _queue s ++ xs.
Proof.
  induction xs as [|x xs IH]; intros s rest Hs Hroom.
  - exists s. simpl. rewrite app_nil_r. auto.
  - simpl length in Hroom.
    assert (Hf : is_full s = false).
    { unfold is_full. rewrite Z.geb_leb. apply Z.leb_gt. lia. }
    cbn [map app]. rewrite (run_put_room s x None [] _ Hf Hs). cbv zeta.
    match goal with |- context [run _ ?s1] =>
      destruct (IH s1 rest) as (s' & Hans & Hq) end.
    + reflexivity.
    + unfold len in *. cbn [_queue _capacity]. rewrite length_app.
      simpl length. lia.
    + exists s'. unfold answers in *. cbn [map]. rewrite Hans, Hq.
      cbn [_queue]. rewrite <- app_assoc. auto.
Qed.

(** Gets on a non-empty buffer hand out its items from the front. *)
Lemma run_gets xs : forall s ys rest,
  _queue s = xs ++ ys ->
  exists s',
    answers (run (map (fun _ => Get None []) xs ++ rest) s) =
      map (fun x => Some (GetResult (true, Some x))) xs
      ++ answers (run rest s') /\
    _queue s' = ys.
Proof.
  induction xs as [|x xs IH]; intros s ys rest Hq.
  - exists s. auto.
  - cbn [map app]. rewrite (run_get_cons s x (xs ++ ys) None [] _ Hq).
    cbv zeta.
    match goal with |- context [run _ ?s1] =>
      destruct (IH s1 ys rest) as (s' & Hans & Hq') end.
    + reflexivity.
    + exists s'. unfold answers in *. cbn [map]. rewrite Hans. auto.
Qed.

End FillAndDrain.

(** * Claims about the queue *)

Section QueueClaims.

Context {A : Type}.
Import BlockingQueue.

Implicit Types (s self q : t A) (item : A) (env : list (wakeup A)).

(** C4.  Constructing a queue of capacity [c] raises exactly when
    [c < 1]; for [c >= 1] it yields a queue of that capacity with an
    empty buffer, the shutdown flag down, size 0 and the four counters
    at zero. *)
Theorem init_fails_iff_capacity_below_one (c : Z) :
  ((exists e, __init__ A c = inl e) <-> c < 1) /\
  (1 <= c ->
   exists q, __init__ A c = inr q /\
     capacity q = c /\ _queue q = [] /\ is_shutdown q = false /\
     size q = 0 /\
     _total_items_added q = 0 /\ _total_items_removed q = 0 /\
     _total_blocked_puts q = 0 /\ _total_blocked_gets q = 0).
Proof.
  unfold __init__. destruct (Z.ltb_spec c 1) as [Hlt|Hge].
  - split.
    + split; [intros _; exact Hlt | intros _; eexists; reflexivity].
    + intros Hc. lia.
  - split.
    + split; [intros [e He]; discriminate | intros Hc; lia].
    + intros _. eexists. split; [reflexivity|]. repeat split.
Qed.

(** C9.  [clear()] empties the buffer and touches nothing else: the
    shutdown flag, the capacity and the four counters are as before;
    in the statistics only [current_size] changes. *)
Theorem clear_empties_buffer_only q :
  _queue (clear q) = [] /\ size (clear q) = 0 /\
  is_empty (clear q) = true /\
  is_shutdown (clear q) = is_shutdown q /\
  capacity (clear q) = capacity q /\
  _total_items_added (clear q) = _total_items_added q /\
  _total_items_removed (clear q) = _total_items_removed q /\
  _total_blocked_puts (clear q) = _total_blocked_puts q /\
  _total_blocked_gets (clear q) = _total_blocked_gets q /\
  get_statistics (clear q) = <["current_size" := 0]> (get_statistics q).
Proof.
  repeat split.
Qed.

(** C1.  On a queue that is shut down, [get] with any timeout and
    under any schedule returns at once: the oldest item, removed from
    the buffer, if there is one, and [(False, None)] with the queue
    unchanged otherwise.  In particular, after [shutdown()] on a queue
    holding one item, [get] returns that item and the next [get]
    returns [(False, None)]. *)
Theorem get_drains_after_shutdown self (timeout : option Q) env :
  (is_shutdown self = true ->
   match _queue self with
   | item :: rest =>
       get self timeout env =
         Returned (true, Some item)
           (mk (_capacity self) rest true
               (_total_items_added self) (_total_items_removed self + 1)
               (_total_blocked_puts self) (_total_blocked_gets self))
   | [] => get self timeout env = Returned (false, None) self
   end) /\
  (forall item (timeout' : option Q) env',
     _queue self = [item] ->
     exists s',
       get (shutdown self) timeout env = Returned (true, Some item) s' /\
       _queue s' = [] /\
       get s' timeout' env' = Returned (false, None) s').
Proof.
  split.
  - unfold is_shutdown. intros Hs.
    destruct (_queue self) as [|item rest] eqn:Hq;
      apply get_without_waiting.
    + apply get_section_drained; assumption.
    + rewrite (get_section_cons _ _ _ _ Hq), Hs. reflexivity.
  - intros item timeout' env' Hq. eexists. split; [|split].
    + apply get_without_waiting.
      apply (get_section_cons (shutdown self) _ item []). exact Hq.
    + reflexivity.
    + apply get_without_waiting. apply get_section_drained; reflexivity.
Qed.

(** C5.  [shutdown()] is idempotent and latching: a second call
    changes nothing; afterwards [is_shutdown()] is true and stays true
    through whatever critical sections and calls follow, under any
    schedule; and [shutdown()] leaves the buffer, the size, the
    capacity and the counters as they were. *)
Theorem shutdown_idempotent_and_latching q :
  shutdown (shutdown q) = shutdown q /\
  is_shutdown (shutdown q) = true /\
  _queue (shutdown q) = _queue q /\
  size (shutdown q) = size q /\
  capacity (shutdown q) = capacity q /\
  _total_items_added (shutdown q) = _total_items_added q /\
  _total_items_removed (shutdown q) = _total_items_removed q /\
  _total_blocked_puts (shutdown q) = _total_blocked_puts q /\
  _total_blocked_gets (shutdown q) = _total_blocked_gets q /\
  get_statistics (shutdown q) = get_statistics q /\
  (forall acts, is_shutdown (interfere acts (shutdown q)) = true) /\
  (forall calls,
     Forall (fun o => is_shutdown (final o) = true)
            (run calls (shutdown q))).
Proof.
  repeat split.
  - intros acts.
    apply (interfere_kept (fun s => is_shutdown s = true) anything);
      [intros a s _; apply act_latched | apply anything_acts
      | reflexivity].
  - intros calls.
    apply (run_kept (fun s => is_shutdown s = true) anything);
      try reflexivity.
    + intros a s _. apply act_latched.
    + apply anything_calls.
Qed.

(** C6.  Trying once: with [timeout=0] and nobody else on the queue,
    [put] on a full queue and [get] on an empty one (neither shut
    down) return failure and leave the buffer as it was.  After
    shutdown, [put] without a timeout returns [False] at once,
    whatever the fill level, leaving the queue untouched, and [get]
    without a timeout returns at once, with [(False, None)] when the
    queue is empty. *)
Theorem try_once_and_after_shutdown self item :
  (is_full self = true -> is_shutdown self = false ->
   exists s',
     put self item (Some 0%Q) (alone (Some 0%Q)) = Returned false s' /\
     _queue s' = _queue self) /\
  (is_empty self = true -> is_shutdown self = false ->
   exists s',
     get self (Some 0%Q) (alone (Some 0%Q)) = Returned (false, None) s' /\
     _queue s' = _queue self) /\
  (is_shutdown self = true ->
   forall env, put self item None env = Returned false self) /\
  (is_shutdown self = true ->
   forall env,
     (exists r s', get self None env = Returned r s') /\
     (is_empty self = true ->
      get self None env = Returned (false, None) self)).
Proof.
  unfold is_shutdown. repeat split.
  - intros Hf Hs. unfold put, alone. simpl.
    rewrite (put_section_full _ _ _ Hf Hs). simpl.
    eexists. split; reflexivity.
  - intros He Hs. unfold get, alone. simpl.
    pose proof (is_empty_nil _ He) as Hq.
    rewrite (get_section_empty _ _ Hq Hs). simpl.
    eexists. split; [reflexivity | symmetry; exact Hq].
  - intros Hs env. apply put_without_waiting.
    apply put_section_shutdown. exact Hs.
  - destruct (_queue self) as [|x rest] eqn:Hq; do 2 eexists;
      apply get_without_waiting.
    + apply get_section_drained; assumption.
    + apply (get_section_cons _ _ _ _ Hq).
  - intros He. apply get_without_waiting.
    apply get_section_drained; [apply is_empty_nil|]; assumption.
Qed.

(** C2.  Starting from a freshly constructed queue of capacity [c],
    after every call of a sequence of [put], [get], [clear] and
    [shutdown] calls (under any schedule, a call left waiting
    included) the size lies between 0 and the capacity, and the
    capacity is still [c]; the same holds after any sequence of
    critical sections.  [put] never appends to a buffer that already
    holds [capacity] items: its critical section leaves such a buffer
    as it is and does not return [True], it only appends when the
    size is below the capacity, and a [put] by a thread that is alone
    returns without having appended, if it returns. *)
Theorem size_stays_within_capacity (c : Z) q0 (calls : list (call A)) :
  __init__ A c = inr q0 ->
  Forall (fun o => 0 <= size (final o) <= capacity (final o) /\
                   capacity (final o) = c)
         (run calls q0) /\
  (forall acts,
     0 <= size (interfere acts q0) <= capacity (interfere acts q0) /\
     capacity (interfere acts q0) = c) /\
  (forall s item blocked,
     is_full s = true ->
     _queue (state_of (put_section s item blocked)) = _queue s /\
     forall s', put_section s item blocked <> Return true s') /\
  (forall s item blocked s',
     put_section s item blocked = Return true s' ->
     size s < capacity s /\ _queue s' = _queue s ++ [item]) /\
  (forall s item (timeout : option Q),
     is_full s = true ->
     _queue (final (put s item timeout (alone timeout))) = _queue s /\
     forall s', put s item timeout (alone timeout) <> Returned true s').
Proof.
  intros Hinit. apply init_inr in Hinit as [Hc ->].
  set (P := fun s : t A => bounded s /\ capacity s = c).
  assert (HP0 : P (mk c [] false 0 0 0 0)).
  { unfold P, bounded, size, capacity, len. simpl. lia. }
  assert (Hkept : forall a s, anything a = true -> P s -> P (act a s)).
  { intros a s _ [Hb Hcap]. split; [apply act_bounded; exact Hb|].
    unfold capacity in *. rewrite act_capacity. exact Hcap. }
  split; [|split; [|split; [|split]]].
  - apply (run_kept P anything); auto using anything_calls.
  - intros acts.
    apply (interfere_kept P anything); auto using anything_acts.
  - intros s item blocked Hf.
    destruct (_shutdown s) eqn:Hs.
    + rewrite (put_section_shutdown s item blocked Hs).
      split; [reflexivity | discriminate].
    + rewrite (put_section_full s item blocked Hf Hs).
      split; [destruct blocked; reflexivity | discriminate].
  - intros s item blocked s'.
    put_cases s item blocked; try discriminate.
    intros [= <-]. split; [apply is_full_false; exact Hfull | reflexivity].
  - intros s item timeout Hf. unfold put.
    destruct (_shutdown s) eqn:Hs.
    + destruct timeout; simpl;
        rewrite (put_section_shutdown s item false Hs);
        split; [reflexivity | discriminate | reflexivity | discriminate].
    + destruct timeout as [seconds|]; cbn [alone put_loop];
        rewrite (put_section_full s item false Hf Hs);
        [destruct (wait_raises (Some seconds))|]; simpl;
        (split; [reflexivity | discriminate]).
Qed.

(** C10.  Starting from a freshly constructed queue, as long as
    nobody calls [clear()], after every call (successful or not, under
    any schedule) the number of items added minus the number removed
    is the size, so the statistics report a [current_size] equal to
    the difference of the two counters.  [clear()] on a non-empty
    buffer breaks the equality. *)
Theorem counters_account_for_size (c : Z) q0 (calls : list (call A)) :
  __init__ A c = inr q0 ->
  clear_free_calls calls = true ->
  Forall (fun o => balanced (final o) /\
                   reports_balance (get_statistics (final o)))
         (run calls q0) /\
  (forall acts, clear_free acts = true -> balanced (interfere acts q0)) /\
  (forall s, balanced s -> _queue s <> [] -> ~ balanced (clear s)).
Proof.
  intros Hinit Hfree. apply init_inr in Hinit as [Hc ->].
  assert (H0 : balanced (A := A) (mk c [] false 0 0 0 0)) by reflexivity.
  split; [|split].
  - apply Forall_impl with (P := fun o => balanced (final o)).
    + apply (run_kept balanced not_clear);
        [reflexivity | reflexivity | exact act_balanced | exact Hfree
        | exact H0].
    + intros o Ho.
      split; [exact Ho | apply statistics_balance; exact Ho].
  - intros acts Hacts.
    apply (interfere_kept balanced not_clear);
      [exact act_balanced | exact Hacts | exact H0].
  - unfold balanced, size, len. simpl. intros s Hs Hne Hcl.
    destruct (_queue s); [congruence | simpl length in Hs; lia].
Qed.

(** C3.  The queue is first in, first out.  From a freshly
    constructed queue and without [clear()], the items accepted by
    [put], in the order of acceptance, are the items handed out by
    [get], in the order of delivery, followed by the buffer; a
    successful [get] removes exactly the oldest item of the buffer;
    and when [x1..xn] fit the capacity, putting them one after the
    other succeeds [n] times and the next [n] gets return
    [x1..xn] in that order. *)
Theorem first_in_first_out (c : Z) q0 (acts : list (action A))
    (xs : list A) :
  __init__ A c = inr q0 ->
  clear_free acts = true ->
  Z.of_nat (length xs) <= c ->
  accepted acts q0 = delivered acts q0 ++ _queue (interfere acts q0) /\
  (forall s blocked x s',
     get_section s blocked = Return (true, Some x) s' ->
     _queue s = x :: _queue s') /\
  answers (run (map (fun x => Put x None (alone None)) xs
                ++ map (fun _ => Get None (alone None)) xs) q0) =
    map (fun _ => Some (PutResult true)) xs
    ++ map (fun x => Some (GetResult (true, Some x))) xs.
Proof.
  intros Hinit Hfree Hfit. apply init_inr in Hinit as [Hc ->].
  split; [|split].
  - exact (interfere_history acts (mk c [] false 0 0 0 0) Hfree).
  - intros s blocked x s' H.
    apply get_section_success in H
      as [(Hr & _)|(y & Hr & Hq)]; [discriminate|].
    injection Hr as <-. exact Hq.
  - cbn [alone].
    destruct (run_puts xs (mk c [] false 0 0 0 0)
                (map (fun _ => Get None []) xs)) as (s1 & Hans & Hq);
      [reflexivity | unfold len; simpl; lia |].
    rewrite Hans. f_equal.
    destruct (run_gets xs s1 [] []) as (s2 & Hans2 & _).
    { rewrite Hq, app_nil_r. reflexivity. }
    rewrite !app_nil_r in Hans2. exact Hans2.
Qed.

End QueueClaims.

(** * The producer *)

Section ProducerFacts.

Context {A : Type}.

Implicit Types (p : Producer.t A) (q : BlockingQueue.t A)
  (sched : list (Producer.round A)).

(** The loop, one iteration unfolded. *)
Lemma producer_loop_eq p q sched :
  Producer.loop p q sched =
  match Producer._source p with
  | [] => Producer.Finished Producer.SourceExhausted p q
  | item :: rest =>
      if Producer._stop_event p
      then Producer.Finished Producer.StopSignal
             (Producer.mk rest (Producer._items_produced p)
                (Producer._running p) (Producer._stop_event p)) q
      else
        match sched with
        | [] => Producer.Unfinished
                  (Producer.mk rest (Producer._items_produced p)
                     (Producer._running p) (Producer._stop_event p)) q
        | r :: sched' =>
            match BlockingQueue.put
                    (BlockingQueue.interfere (Producer.before_put r) q)
                    item None (Producer.waits r) with
            | BlockingQueue.Blocked q' =>
                Producer.Unfinished
                  (Producer.mk rest (Producer._items_produced p)
                     (Producer._running p)
                     (Producer._stop_event p || Producer.stop_called r))
                  q'
            | BlockingQueue.Raised e q' =>
                Producer.Raised e
                  (Producer.mk rest (Producer._items_produced p)
                     (Producer._running p)
                     (Producer._stop_event p || Producer.stop_called r))
                  q'
            | BlockingQueue.Returned false q' =>
                Producer.Finished Producer.PutRejected
                  (Producer.mk rest (Producer._items_produced p)
                     (Producer._running p)
                     (Producer._stop_event p || Producer.stop_called r))
                  q'
            | BlockingQueue.Returned true q' =>
                Producer.loop
                  (Producer.mk rest (Producer._items_produced p + 1)
                     (Producer._running p)
                     (Producer._stop_event p || Producer.stop_called r))
                  q' sched'
            end
        end
  end.
Proof. destruct sched; reflexivity. Qed.

(** [put] is called without a timeout, whose wait never raises: no
    run of the producer is left by an exception. *)
Lemma producer_loop_never_raises sched : forall p q e p' q',
  Producer.loop p q sched <> Producer.Raised e p' q'.
Proof.
  induction sched as [|r sched IH]; intros p q e p' q';
    rewrite producer_loop_eq;
    destruct (Producer._source p) as [|item rest]; try discriminate;
    destruct (Producer._stop_event p); try discriminate.
  destruct (BlockingQueue.put _ item None _) as [[|] q1|q1|e1 q1] eqn:Hput;
    try discriminate.
  - apply IH.
  - apply put_loop_raised in Hput as [Hraise _]. discriminate.
Qed.

End ProducerFacts.

(** * The consumer *)

Section ConsumerFacts.

Context {A : Type}.

Implicit Types (c : Consumer.t A) (q : BlockingQueue.t A)
  (sched : list (Consumer.round A)).

Lemma interfere_latched acts q :
  BlockingQueue._shutdown q = true ->
  BlockingQueue._shutdown (BlockingQueue.interfere acts q) = true.
Proof.
  apply (interfere_kept (fun s => BlockingQueue._shutdown s = true)
           anything);
    [intros a s _; apply act_latched | apply anything_acts].
Qed.





End ConsumerFacts.

Section ConsumerClaims.

Context {A : Type}.

Implicit Types (c : Consumer.t A) (q : BlockingQueue.t A)
  (sched : list (Consumer.round A)).


End ConsumerClaims.

(** * Concrete runs *)

Section Runs.

Import BlockingQueue.

(** The scenarios of [tests/test_blocking_queue.py], run by a single
    thread. *)

Example test_init_invalid_capacity :
  __init__ string 0 = inl (ValueError "Capacity must be at least 1") /\
  __init__ string (-1) = inl (ValueError "Capacity must be at least 1").
Proof. split; reflexivity. Qed.

Example test_put_and_get_multiple_items :
  answers
    (run [Put "a" None (alone None); Put "b" None (alone None);
          Put "c" None (alone None); Put "d" None (alone None);
          Get None (alone None); Get None (alone None);
          Get None (alone None); Get None (alone None)]
         (mk 5 [] false 0 0 0 0)) =
  [Some (PutResult true); Some (PutResult true); Some (PutResult true);
   Some (PutResult true);
   Some (GetResult (true, Some "a")); Some (GetResult (true, Some "b"));
   Some (GetResult (true, Some "c")); Some (GetResult (true, Some "d"))].
Proof. reflexivity. Qed.

Example test_put_timeout_on_full_queue :
  run [Put "item1" None (alone None);
       Put "item2" (Some (1 # 10)%Q) (alone (Some (1 # 10)%Q))]
      (mk 1 [] false 0 0 0 0) =
  [Returned (PutResult true) (mk 1 ["item1"] false 1 0 0 0);
   Returned (PutResult false) (mk 1 ["item1"] false 1 0 1 0)].
Proof. reflexivity. Qed.

Example test_put_blocks_then_succeeds :
  put (mk 1 ["item1"] false 1 0 0 0) "item2" (Some 1%Q)
      [mkWakeup [GetSection false] true] =
  Returned true (mk 1 ["item2"] false 2 1 1 0).
Proof. reflexivity. Qed.

Example test_operations_after_shutdown :
  answers
    (run [Put "item" None (alone None); Shutdown;
          Put "new_item" None (alone None); Get None (alone None);
          Get (Some (1 # 10)%Q) (alone (Some (1 # 10)%Q))]
         (mk 5 [] false 0 0 0 0)) =
  [Some (PutResult true); Some NoResult; Some (PutResult false);
   Some (GetResult (true, Some "item")); Some (GetResult (false, None))].
Proof. reflexivity. Qed.

(** The timeouts [wait] takes: the limit lies within the second that
    follows [threading.TIMEOUT_MAX]; a timeout of zero or less is
    never rejected. *)
Example timeouts_accepted_by_wait :
  TIMEOUT_MAX = 9223372036 /\
  wait_raises (Some (inject_Z TIMEOUT_MAX)) = None /\
  wait_raises (Some (inject_Z TIMEOUT_MAX + (1 # 2))%Q) = None /\
  wait_raises (Some (inject_Z TIMEOUT_MAX + 1)%Q) = Some OverflowError /\
  wait_raises (Some 0%Q) = None /\
  wait_raises (Some (- (1))%Q) = None /\
  wait_raises None = None.
Proof. repeat split. Qed.

(** A [get] with a timeout that [wait] rejects raises as soon as it
    has to wait, after counting itself as blocked; it returns as
    usual when it does not have to wait. *)
Example get_with_oversized_timeout :
  get (mk 1 [] false 0 0 0 0) (Some 10000000000%Q)
      (alone (Some 10000000000%Q)) =
    Raised OverflowError (mk 1 ([] : list string) false 0 0 0 1) /\
  get (mk 1 ["a"] false 1 0 0 0) (Some 10000000000%Q)
      (alone (Some 10000000000%Q)) =
    Returned (true, Some "a") (mk 1 [] false 1 1 0 0).
Proof. split; reflexivity. Qed.

(** A blocking [put] on a full queue with nobody to make room never
    returns. *)
Example put_alone_on_full_queue :
  put (mk 1 ["item1"] false 1 0 0 0) "item2" None (alone None) =
  Blocked (mk 1 ["item1"] false 1 0 1 0).
Proof. reflexivity. Qed.

(** Scenarios of [tests/test_producer.py] and
    [tests/test_consumer.py]; the schedule says what the test's main
    thread does meanwhile. *)

Example test_producer_with_list_source :
  Producer.run (Producer.__init__ ["a"; "b"; "c"; "d"; "e"])
    (mk 10 [] false 0 0 0 0) (repeat Producer.quiet 5) =
  Producer.Finished Producer.SourceExhausted
    (Producer.mk [] 5 false false)
    (mk 10 ["a"; "b"; "c"; "d"; "e"] false 5 0 0 0).
Proof. reflexivity. Qed.

Example test_producer_blocks_on_full_queue :
  Producer.run (Producer.__init__ [0; 1; 2; 3; 4])
    (mk 2 [] false 0 0 0 0)
    [Producer.quiet; Producer.quiet;
     Producer.mkRound [] [mkWakeup [GetSection false] true] false;
     Producer.mkRound []
       [mkWakeup [GetSection false; GetSection false] true] false;
     Producer.quiet] =
  Producer.Finished Producer.SourceExhausted
    (Producer.mk [] 5 false false)
    (mk 2 [3; 4] false 5 3 2 0).
Proof. reflexivity. Qed.

Example test_producer_queue_shutdown :
  Producer.run (Producer.__init__ [0; 1; 2; 3; 4; 5; 6; 7; 8; 9])
    (mk 2 [] false 0 0 0 0)
    [Producer.quiet; Producer.quiet;
     Producer.mkRound [] [mkWakeup [ShutdownCall] true] false] =
  Producer.Finished Producer.PutRejected
    (Producer.mk [3; 4; 5; 6; 7; 8; 9] 2 false false)
    (mk 2 [0; 1] true 2 0 1 0).
Proof. reflexivity. Qed.

Example test_consumer_stops_on_queue_shutdown :
  Consumer.run (Consumer.__init__ None (Some (1 # 10)%Q))
    (mk 10 ["item"] false 1 0 0 0)
    [Consumer.quiet (Some (1 # 10)%Q);
     Consumer.quiet (Some (1 # 10)%Q);
     Consumer.mkRound [] [mkWakeup [ShutdownCall] true] [] [] [] false] =
  Consumer.Finished Consumer.ShutdownAndEmpty
    (Consumer.mk ["item"] (Some (1 # 10)%Q) 1 false false)
    (mk 10 [] true 1 1 0 2).
Proof. reflexivity. Qed.

(** A stop signal raised during an iteration is noticed at the next
    check: the consumer then leaves with the remaining items still in
    the queue. *)
Example consumer_stop_leaves_items :
  Consumer.run (Consumer.__init__ None (Some (1 # 2)%Q))
    (mk 10 ["item-0"; "item-1"; "item-2"] false 3 0 0 0)
    [Consumer.quiet (Some (1 # 2)%Q);
     Consumer.mkRound [] [] [] [] [] true;
     Consumer.quiet (Some (1 # 2)%Q)] =
  Consumer.Finished Consumer.StopSignal
    (Consumer.mk ["item-0"; "item-1"] (Some (1 # 2)%Q) 2 false true)
    (mk 10 ["item-2"] false 3 2 0 0).
Proof. reflexivity. Qed.

(** ** Instances of the claims *)

Lemma init_fails_iff_capacity_below_one_witness :
  1 <= 3 /\
  exists q : t string,
    __init__ string 3 = inr q /\
    capacity q = 3 /\ _queue q = [] /\ is_shutdown q = false /\
    size q = 0 /\
    _total_items_added q = 0 /\ _total_items_removed q = 0 /\
    _total_blocked_puts q = 0 /\ _total_blocked_gets q = 0.
Proof.
  split; [lia|].
  apply (proj2 (init_fails_iff_capacity_below_one (A := string) 3)). lia.
Defined.

Lemma get_drains_after_shutdown_witness :
  let self := mk 2 ["a"; "b"] true 2 0 0 0 in
  is_shutdown self = true /\
  get self None [] = Returned (true, Some "a") (mk 2 ["b"] true 2 1 0 0).
Proof.
  split; [reflexivity|].
  exact (proj1 (get_drains_after_shutdown
                  (mk 2 ["a"; "b"] true 2 0 0 0) None []) eq_refl).
Defined.

Lemma try_once_and_after_shutdown_witness :
  let full := mk 1 ["a"] false 1 0 0 0 in
  let empty := mk 1 ([] : list string) false 0 0 0 0 in
  let down := mk 1 ["a"] true 1 0 0 0 in
  (is_full full = true /\ is_shutdown full = false /\
   exists s',
     put full "b" (Some 0%Q) (alone (Some 0%Q)) = Returned false s' /\
     _queue s' = _queue full) /\
  (is_empty empty = true /\ is_shutdown empty = false /\
   exists s',
     get empty (Some 0%Q) (alone (Some 0%Q)) = Returned (false, None) s' /\
     _queue s' = _queue empty) /\
  (is_shutdown down = true /\
   forall env, put down "b" None env = Returned false down).
Proof.
  cbv zeta. split; [|split].
  - split; [reflexivity|]. split; [reflexivity|].
    exact (proj1 (try_once_and_after_shutdown
                    (mk 1 ["a"] false 1 0 0 0) "b") eq_refl eq_refl).
  - split; [reflexivity|]. split; [reflexivity|].
    exact (proj1 (proj2 (try_once_and_after_shutdown
                           (mk 1 [] false 0 0 0 0) "b"))
             eq_refl eq_refl).
  - split; [reflexivity|].
    exact (proj1 (proj2 (proj2 (try_once_and_after_shutdown
                                  (mk 1 ["a"] true 1 0 0 0) "b")))
             eq_refl).
Defined.

Lemma size_stays_within_capacity_witness :
  let q0 := mk 2 [] false 0 0 0 0 in
  let calls :=
    [Put "a" None []; Put "b" None [];
     Put "c" (Some 0%Q) (alone (Some 0%Q));
     Get None []; Clear; Shutdown; Put "d" None []] in
  __init__ string 2 = inr q0 /\
  Forall (fun o => 0 <= size (final o) <= capacity (final o) /\
                   capacity (final o) = 2)
         (run calls q0).
Proof.
  cbv zeta. split; [reflexivity|].
  exact (proj1 (size_stays_within_capacity 2 _ _ eq_refl)).
Defined.

Lemma counters_account_for_size_witness :
  let q0 := mk 2 [] false 0 0 0 0 in
  let calls :=
    [Put "a" None []; Put "b" None [];
     Put "c" (Some 0%Q) (alone (Some 0%Q));
     Get None []; Shutdown; Put "d" None []; Get None []; Get None []] in
  __init__ string 2 = inr q0 /\
  clear_free_calls calls = true /\
  Forall (fun o => balanced (final o) /\
                   reports_balance (get_statistics (final o)))
         (run calls q0).
Proof.
  cbv zeta. split; [reflexivity|]. split; [reflexivity|].
  refine (proj1 (counters_account_for_size 2 _ _ _ _)); reflexivity.
Defined.

Lemma first_in_first_out_witness :
  let q0 := mk 2 [] false 0 0 0 0 in
  let acts :=
    [PutSection "a" false; GetSection false; GetSection false;
     PutSection "b" false; PutSection "c" false; PutSection "d" false;
     GetSection true] in
  let xs := ["a"; "b"] in
  __init__ string 2 = inr q0 /\
  clear_free acts = true /\
  Z.of_nat (length xs) <= 2 /\
  accepted acts q0 = delivered acts q0 ++ _queue (interfere acts q0) /\
  answers (run (map (fun x => Put x None (alone None)) xs
                ++ map (fun _ => Get None (alone None)) xs) q0) =
    map (fun _ => Some (PutResult true)) xs
    ++ map (fun x => Some (GetResult (true, Some x))) xs.
Proof.
  cbv zeta. split; [reflexivity|]. split; [reflexivity|].
  split; [simpl; lia|].
  pose proof (first_in_first_out 2 (mk 2 [] false 0 0 0 0)
    [PutSection "a" false; GetSection false; GetSection false;
     PutSection "b" false; PutSection "c" false; PutSection "d" false;
     GetSection true]
    ["a"; "b"] eq_refl eq_refl ltac:(simpl; lia)) as (H1 & _ & H3).
  split; [exact H1 | exact H3].
Defined.



(** C7, at the failing input.  A producer whose stop signal is set
    before [run] starts reads the first item of its source and only
    then looks at the signal: whatever the schedule, the run ends
    with ["a"] gone from the source, nothing put and nothing counted.
    The loop of the consumer checks the signal before it calls [get]:
    stopped the same way, it takes nothing from the queue. *)
Lemma producer_reads_an_item_after_stop
    (schedp : list (Producer.round string))
    (schedc : list (Consumer.round string)) :
  Producer.run (Producer.stop (Producer.__init__ ["a"; "b"]))
    (mk 2 [] false 0 0 0 0) schedp =
    Producer.Finished Producer.StopSignal
      (Producer.mk ["b"] 0 false true) (mk 2 [] false 0 0 0 0) /\
  Consumer.run (Consumer.stop (Consumer.__init__ None (Some 1%Q)))
    (mk 2 ["a"; "b"] false 2 0 0 0) schedc =
    Consumer.Finished Consumer.StopSignal
      (Consumer.mk [] (Some 1%Q) 0 false true)
      (mk 2 ["a"; "b"] false 2 0 0 0).
Proof.
  destruct schedp, schedc; split; reflexivity.
Qed.

End Runs.

(** * Further properties of the queue *)

Ltac act_cases a s :=
  let item := fresh "item" in
  let blocked := fresh "blocked" in
  destruct a as [item blocked|blocked| |]; cbn [BlockingQueue.act];
  [ put_cases s item blocked; try destruct blocked
  | get_cases s blocked; try destruct blocked
  | | ];
  cbn [BlockingQueue.state_of BlockingQueue.shutdown BlockingQueue.clear
       BlockingQueue._capacity BlockingQueue._queue BlockingQueue._shutdown
       BlockingQueue._total_items_added BlockingQueue._total_items_removed
       BlockingQueue._total_blocked_puts BlockingQueue._total_blocked_gets].

Section QueueCounters.

Context {A : Type}.
Import BlockingQueue.

Implicit Types (s self q : t A) (item : A) (env : list (wakeup A))
  (a : action A).

Lemma act_counters_grown a s0 s :
  counters_grown s0 s -> counters_grown s0 (act a s).
Proof.
  unfold counters_grown. intros H. act_cases a s; lia.
Qed.

Lemma act_accounted a s : accounted s -> accounted (act a s).
Proof.
  unfold accounted, size, len. intros H.
  act_cases a s; rewrite ?Hbuf; simpl length in *;
    rewrite ?length_app; simpl length; lia.
Qed.

Lemma act_blocked_puts a s :
  no_puts a = true ->
  _total_blocked_puts (act a s) = _total_blocked_puts s.
Proof. intros Ha. act_cases a s; try reflexivity; discriminate. Qed.

Lemma act_blocked_gets a s :
  no_gets a = true ->
  _total_blocked_gets (act a s) = _total_blocked_gets s.
Proof. intros Ha. act_cases a s; try reflexivity; discriminate. Qed.

Lemma fresh_run_bounded (c : Z) q0 (calls : list (call A)) :
  __init__ A c = inr q0 ->
  Forall (fun o => bounded (final o) /\ _capacity (final o) = c /\ 1 <= c)
         (run calls q0).
Proof.
  intros Hinit. apply init_inr in Hinit as [Hc ->].
  apply (run_kept (fun s => bounded s /\ _capacity s = c /\ 1 <= c)
           anything); try reflexivity.
  - intros a s _ (Hb & Hcap & _).
    split; [apply act_bounded; exact Hb|].
    rewrite act_capacity. auto.
  - apply anything_calls.
  - unfold bounded, size, capacity, len. simpl. lia.
Qed.

(** After a wait with a timeout has expired or a wait has been
    notified while the queue is still full, [put] is where it was:
    the waiting section of a call that has already counted itself. *)
Lemma put_section_still_waiting self item s1 :
  put_section self item false = Wait s1 ->
  put_section s1 item true = Wait s1.
Proof.
  put_cases self item false; try discriminate.
  intros [= <-]. apply put_section_full; [|reflexivity].
  unfold is_full, len in *. exact Hfull.
Qed.

Lemma get_section_still_waiting self s1 :
  get_section self false = Wait s1 ->
  get_section s1 true = Wait s1.
Proof.
  get_cases self false; try discriminate.
  intros [= <-]. apply get_section_empty; reflexivity.
Qed.

Lemma put_loop_eq self item timeout blocked env :
  put_loop self item timeout blocked env =
  match put_section self item blocked with
  | Return r s => Returned r s
  | Wait s =>
      match wait_raises timeout with
      | Some e => Raised e s
      | None =>
          match env with
          | [] => Blocked s
          | w :: env' =>
              if wait timeout w
              then put_loop (interfere (during w) s) item timeout true env'
              else Returned false (interfere (during w) s)
          end
      end
  end.
Proof. destruct env; reflexivity. Qed.

Lemma get_loop_eq self timeout blocked env :
  get_loop self timeout blocked env =
  match get_section self blocked with
  | Return r s => Returned r s
  | Wait s =>
      match wait_raises timeout with
      | Some e => Raised e s
      | None =>
          match env with
          | [] => Blocked s
          | w :: env' =>
              if wait timeout w
              then get_loop (interfere (during w) s) timeout true env'
              else Returned (false, None) (interfere (during w) s)
          end
      end
  end.
Proof. destruct env; reflexivity. Qed.

Lemma interfere_blocked_puts acts s :
  forallb no_puts acts = true ->
  _total_blocked_puts (interfere acts s) = _total_blocked_puts s.
Proof.
  intros Hacts.
  apply (interfere_kept
           (fun s' => _total_blocked_puts s' = _total_blocked_puts s)
           no_puts); [|exact Hacts|reflexivity].
  intros a s' Ha Hs'. rewrite act_blocked_puts; assumption.
Qed.

Lemma interfere_blocked_gets acts s :
  forallb no_gets acts = true ->
  _total_blocked_gets (interfere acts s) = _total_blocked_gets s.
Proof.
  intros Hacts.
  apply (interfere_kept
           (fun s' => _total_blocked_gets s' = _total_blocked_gets s)
           no_gets); [|exact Hacts|reflexivity].
  intros a s' Ha Hs'. rewrite act_blocked_gets; assumption.
Qed.

(** A call that has already counted itself as blocked does not count
    itself again, however often it is woken. *)
Lemma put_loop_counted env : forall self item timeout,
  permitted_env no_puts env = true ->
  _total_blocked_puts (final (put_loop self item timeout true env)) =
  _total_blocked_puts self.
Proof.
  induction env as [|w env IH]; intros self item timeout Henv;
    rewrite put_loop_eq; put_cases self item true; try reflexivity;
    destruct (wait_raises timeout); try reflexivity.
  unfold permitted_env in Henv. simpl in Henv.
  apply andb_true_iff in Henv as [Hw Henv].
  destruct (wait timeout w); simpl.
  - rewrite IH by exact Henv. apply interfere_blocked_puts. exact Hw.
  - apply interfere_blocked_puts. exact Hw.
Qed.

Lemma get_loop_counted env : forall self timeout,
  permitted_env no_gets env = true ->
  _total_blocked_gets (final (get_loop self timeout true env)) =
  _total_blocked_gets self.
Proof.
  induction env as [|w env IH]; intros self timeout Henv;
    rewrite get_loop_eq; get_cases self true; try reflexivity;
    destruct (wait_raises timeout); try reflexivity.
  unfold permitted_env in Henv. simpl in Henv.
  apply andb_true_iff in Henv as [Hw Henv].
  destruct (wait timeout w); simpl.
  - rewrite IH by exact Henv. apply interfere_blocked_gets. exact Hw.
  - apply interfere_blocked_gets. exact Hw.
Qed.

Lemma shuts_down_latched acts : forall s,
  shuts_down acts = true -> _shutdown (interfere acts s) = true.
Proof.
  induction acts as [|a acts IH]; intros s H; [discriminate|].
  simpl in *. apply orb_true_iff in H as [H|H].
  - destruct a; try discriminate. simpl.
    apply (interfere_kept (fun s' => _shutdown s' = true) anything);
      [intros a s' _; apply act_latched | apply anything_acts
      | reflexivity].
  - apply IH. exact H.
Qed.

End QueueCounters.

Section QueueExtras.

Context {A : Type}.
Import BlockingQueue.

Implicit Types (s self q : t A) (item : A) (env : list (wakeup A))
  (a : action A).

(** X2.  In every state a call sequence reaches from a freshly
    constructed queue, the observers agree with each other:
    [is_full()] holds exactly when the size is the capacity,
    [is_empty()] exactly when the size is 0, the two never hold
    together, and [len(queue)] is [size()]. *)
Theorem observers_agree (c : Z) q0 (calls : list (call A)) :
  __init__ A c = inr q0 ->
  Forall (fun o =>
            let s := final o in
            (is_full s = true <-> size s = capacity s) /\
            (is_empty s = true <-> size s = 0) /\
            (is_empty s = true -> is_full s = false) /\
            __len__ s = size s)
         (run calls q0).
Proof.
  intros Hinit.
  eapply Forall_impl; [apply (fresh_run_bounded c q0 calls Hinit)|].
  intros o ([Hlo Hhi] & Hcap & Hc). cbv zeta.
  unfold is_full, is_empty, __len__, size, capacity in *.
  rewrite Z.geb_le, Z.eqb_eq.
  repeat split; lia.
Qed.

(** X3.  A call counts as blocked at most once.  When no other thread
    is putting, a [put] raises [blocked_puts] by one if it finds the
    queue full and not shut down on entry, and by nothing otherwise,
    however many times it is woken and whether it ends by returning or
    stays waiting; likewise for [get] and [blocked_gets] on an empty
    queue when no other thread is getting. *)
Theorem blocked_calls_counted_once self item (timeout : option Q) env :
  (permitted_env no_puts env = true ->
   _total_blocked_puts (final (put self item timeout env)) =
   _total_blocked_puts self
   + (if is_full self && negb (is_shutdown self) then 1 else 0)) /\
  (permitted_env no_gets env = true ->
   _total_blocked_gets (final (get self timeout env)) =
   _total_blocked_gets self
   + (if is_empty self && negb (is_shutdown self) then 1 else 0)).
Proof.
  unfold is_shutdown, put, get. split; intros Henv.
  - rewrite put_loop_eq.
    put_cases self item false; simpl; rewrite ?andb_false_r; try lia.
    destruct (wait_raises timeout); simpl; [lia|].
    destruct env as [|w env]; simpl; [lia|].
    unfold permitted_env in Henv. simpl in Henv.
    apply andb_true_iff in Henv as [Hw Henv].
    destruct (wait timeout w); simpl.
    + rewrite put_loop_counted by exact Henv.
      rewrite interfere_blocked_puts by exact Hw. reflexivity.
    + rewrite interfere_blocked_puts by exact Hw. reflexivity.
  - rewrite get_loop_eq. unfold is_empty.
    get_cases self false; simpl;
      rewrite ?(len_nil _ Hbuf), ?(len_cons _ _ _ Hbuf); simpl;
      rewrite ?andb_false_r; try lia.
    destruct (wait_raises timeout); simpl; [lia|].
    destruct env as [|w env]; simpl; [lia|].
    unfold permitted_env in Henv. simpl in Henv.
    apply andb_true_iff in Henv as [Hw Henv].
    destruct (wait timeout w); simpl.
    + rewrite get_loop_counted by exact Henv.
      rewrite interfere_blocked_gets by exact Hw. reflexivity.
    + rewrite interfere_blocked_gets by exact Hw. reflexivity.
Qed.

(** X4.  The four statistics counters never go down: after every call
    of any sequence of calls, under any schedule and from any state,
    each counter is at least what it was at the start. *)
Theorem counters_never_decrease s (calls : list (call A)) :
  Forall (fun o =>
            _total_items_added s <= _total_items_added (final o) /\
            _total_items_removed s <= _total_items_removed (final o) /\
            _total_blocked_puts s <= _total_blocked_puts (final o) /\
            _total_blocked_gets s <= _total_blocked_gets (final o))
         (run calls s).
Proof.
  apply (run_kept (counters_grown s) anything); try reflexivity.
  - intros a s' _. apply act_counters_grown.
  - apply anything_calls.
  - unfold counters_grown. lia.
Qed.

(** X5.  From a freshly constructed queue, [clear()] included: the
    number of items removed never exceeds the number added, and the
    size never exceeds their difference (the rest are the items that
    were cleared); all four counters stay non-negative. *)
Theorem removed_never_exceeds_added (c : Z) q0 (calls : list (call A)) :
  __init__ A c = inr q0 ->
  Forall (fun o =>
            let s := final o in
            0 <= _total_items_removed s <= _total_items_added s /\
            0 <= size s <= _total_items_added s - _total_items_removed s /\
            0 <= _total_blocked_puts s /\
            0 <= _total_blocked_gets s)
         (run calls q0).
Proof.
  intros Hinit. apply init_inr in Hinit as [Hc ->].
  apply Forall_impl with (P := fun o => accounted (final o)).
  - apply (run_kept accounted anything); try reflexivity.
    + intros a s _. apply act_accounted.
    + apply anything_calls.
    + unfold accounted, size, len. simpl. lia.
  - intros o (Hr & Hs & Hp & Hg). cbv zeta.
    unfold size, len in *. lia.
Qed.

(** X6.  Shutdown releases waiters.  A [put] waiting on a full queue
    (so with no timeout, or with one that [wait] accepts) whose wait
    overlaps a [shutdown()] returns [False] at that very wake-up,
    notified or timed out, whether or not room has appeared
    meanwhile.  A [get] waiting on an empty queue whose wait overlaps
    a [shutdown()] returns at that wake-up too: with an item if one
    has arrived and the wait did not time out, with [(False, None)]
    otherwise.  Neither call looks at the rest of the schedule. *)
Theorem shutdown_releases_waiters self item (timeout : option Q)
    (w : wakeup A) env :
  wait_raises timeout = None ->
  is_shutdown self = false ->
  shuts_down (during w) = true ->
  (is_full self = true ->
   exists s',
     put self item timeout (w :: env) = Returned false s' /\
     is_shutdown s' = true) /\
  (is_empty self = true ->
   exists r s',
     get self timeout (w :: env) = Returned r s' /\
     is_shutdown s' = true /\
     (r = (false, None) \/ exists x, r = (true, Some x))).
Proof.
  unfold is_shutdown. intros Hok Hs Hw. split.
  - intros Hf. unfold put. rewrite put_loop_eq.
    rewrite (put_section_full _ _ _ Hf Hs), Hok.
    match goal with |- context [interfere (during w) ?s1] =>
      pose proof (shuts_down_latched (during w) s1 Hw) as Hdown end.
    destruct (wait timeout w).
    + rewrite put_loop_eq, (put_section_shutdown _ _ _ Hdown). eauto.
    + eauto.
  - intros He. apply is_empty_nil in He. unfold get. rewrite get_loop_eq.
    rewrite (get_section_empty _ _ He Hs), Hok.
    match goal with |- context [interfere (during w) ?s1] =>
      pose proof (shuts_down_latched (during w) s1 Hw) as Hdown;
      set (s2 := interfere (during w) s1) in * end.
    destruct (wait timeout w); [|eauto 6].
    rewrite get_loop_eq.
    destruct (_queue s2) as [|x rest] eqn:Hq.
    + rewrite (get_section_drained _ _ Hq Hdown). eauto 6.
    + rewrite (get_section_cons _ _ _ _ Hq).
      do 2 eexists. split; [reflexivity|]. split; [exact Hdown|]. eauto.
Qed.

(** X7.  A spurious wake-up is harmless: a wake-up during which no
    other thread ran and which [wait] reports as a notification
    changes neither the result nor the final state of a [put] or a
    [get], whatever the state of the queue. *)
Theorem spurious_wakeup_is_harmless self item (timeout : option Q)
    (w : wakeup A) env :
  during w = [] ->
  wait timeout w = true ->
  put self item timeout (w :: env) = put self item timeout env /\
  get self timeout (w :: env) = get self timeout env.
Proof.
  intros Hd Hw. unfold put, get. split.
  - rewrite (put_loop_eq self), (put_loop_eq self item timeout false env).
    destruct (put_section self item false) as [r s1|s1] eqn:Hsec;
      [reflexivity|].
    destruct (wait_raises timeout) eqn:Hraise; [reflexivity|].
    rewrite Hw, Hd. cbn [interfere fold_left].
    rewrite put_loop_eq, (put_section_still_waiting _ _ _ Hsec), Hraise.
    reflexivity.
  - rewrite (get_loop_eq self), (get_loop_eq self timeout false env).
    destruct (get_section self false) as [r s1|s1] eqn:Hsec;
      [reflexivity|].
    destruct (wait_raises timeout) eqn:Hraise; [reflexivity|].
    rewrite Hw, Hd. cbn [interfere fold_left].
    rewrite get_loop_eq, (get_section_still_waiting _ _ Hsec), Hraise.
    reflexivity.
Qed.

End QueueExtras.

(** * Items going through the queue *)

Section Moved.

Context {A : Type}.
Import BlockingQueue.

Implicit Types (s self q : t A) (item : A) (env : list (wakeup A))
  (a : action A) (acts : list (action A)).

Lemma moved_refl s : moved s s [] [].
Proof. unfold moved. rewrite app_nil_r. simpl. repeat split; lia. Qed.

Lemma moved_trans s s1 s2 ins1 outs1 ins2 outs2 :
  moved s s1 ins1 outs1 -> moved s1 s2 ins2 outs2 ->
  moved s s2 (ins1 ++ ins2) (outs1 ++ outs2).
Proof.
  unfold moved. intros (Hq1 & Ha1 & Hr1) (Hq2 & Ha2 & Hr2).
  rewrite !length_app. repeat split; try lia.
  rewrite app_assoc, Hq1, <- !app_assoc, Hq2. reflexivity.
Qed.

Lemma act_moved a s :
  not_clear a = true -> moved s (act a s) (accepts a s) (delivers a s).
Proof.
  unfold moved. intros Ha.
  act_cases a s; try discriminate; cbn [accepts delivers];
    rewrite ?put_section_shutdown, ?put_section_full,
      ?put_section_room by assumption;
    rewrite ?(get_section_drained _ _ Hbuf Hshut),
      ?(get_section_empty _ _ Hbuf Hshut),
      ?(get_section_cons _ _ _ _ Hbuf);
    rewrite ?Hbuf, ?app_nil_r; simpl; repeat split; lia.
Qed.

Lemma interfere_moved acts : forall s,
  clear_free acts = true ->
  moved s (interfere acts s) (accepted acts s) (delivered acts s).
Proof.
  induction acts as [|a acts IH]; intros s Hok; simpl.
  - apply moved_refl.
  - unfold clear_free in Hok. simpl in Hok.
    apply andb_true_iff in Hok as [Ha Hacts].
    eapply moved_trans; [apply act_moved; exact Ha | apply IH; exact Hacts].
Qed.


Lemma delivered_only_producers acts : forall s,
  forallb only_producers acts = true -> delivered acts s = [].
Proof.
  induction acts as [|a acts IH]; intros s H; [reflexivity|].
  simpl in *. apply andb_true_iff in H as [Ha Hacts].
  rewrite IH by exact Hacts. destruct a; try discriminate; reflexivity.
Qed.


Lemma only_producers_clear_free acts :
  forallb only_producers acts = true -> clear_free acts = true.
Proof.
  unfold clear_free. induction acts as [|a acts IH]; [reflexivity|].
  simpl. intros H. apply andb_true_iff in H as [Ha Hacts].
  rewrite IH by exact Hacts. destruct a; try discriminate; reflexivity.
Qed.


(** What producers do to the queue: items go in, none comes out. *)
Lemma producers_moved acts s :
  forallb only_producers acts = true ->
  exists ins, moved s (interfere acts s) ins [].
Proof.
  intros H. exists (accepted acts s).
  rewrite <- (delivered_only_producers acts s H).
  apply interfere_moved. apply only_producers_clear_free. exact H.
Qed.



End Moved.

(** * Handing over one item *)

Section Handover.

Context {A : Type}.
Import BlockingQueue.

Implicit Types (s self q : t A) (item : A) (env : list (wakeup A))
  (acts : list (action A)).

(** X1.  Handing over one item.  On an empty queue that is not shut
    down (capacity 1 is enough), [put] returns [True] at once,
    whatever its timeout and its schedule.  If the other threads only
    put or shut down between that [put] and the next [get], that
    [get] returns this very item at once and leaves in the buffer
    what the others have put in; with nothing in between, the buffer
    is empty again afterwards and each of the two item counters has
    gone up by one.  If instead another consumer takes the item in
    between, the [get] finds the queue empty and waits: for ever, if
    it has no timeout and nobody else comes. *)
Theorem put_then_get_hands_over self item (t1 t2 : option Q) env1 env2 :
  _queue self = [] ->
  is_shutdown self = false ->
  1 <= capacity self ->
  exists s1,
    put self item t1 env1 = Returned true s1 /\
    get s1 t2 env2 =
      Returned (true, Some item)
        (mk (_capacity self) [] false
            (_total_items_added self + 1) (_total_items_removed self + 1)
            (_total_blocked_puts self) (_total_blocked_gets self)) /\
    (forall acts,
       forallb only_producers acts = true ->
       exists ins s2,
         get (interfere acts s1) t2 env2 = Returned (true, Some item) s2 /\
         _queue s2 = ins /\
         moved s1 (interfere acts s1) ins [] /\
         _total_items_removed s2 = _total_items_removed self + 1) /\
    get (interfere [GetSection false] s1) None (alone None) =
      Blocked
        (mk (_capacity self) [] false
            (_total_items_added self + 1) (_total_items_removed self + 1)
            (_total_blocked_puts self) (_total_blocked_gets self + 1)).
Proof.
  unfold is_shutdown, capacity. intros Hq Hs Hc.
  assert (Hf : is_full self = false).
  { unfold is_full. rewrite (len_nil _ Hq), Z.geb_leb. apply Z.leb_gt. lia. }
  eexists. split; [|split; [|split]].
  - apply put_without_waiting. apply put_section_room; assumption.
  - apply get_without_waiting.
    rewrite (get_section_cons _ false item []); [reflexivity|].
    cbn [_queue]. rewrite Hq. reflexivity.
  - intros acts Hacts.
    match goal with |- context [interfere acts ?s1] =>
      set (put_done := s1);
      destruct (producers_moved acts put_done Hacts) as (ins & Hmoved) end.
    pose proof Hmoved as (Hbuf & _ & Hrem).
    assert (Hone : _queue put_done = [item]).
    { subst put_done. cbn [_queue]. rewrite Hq. reflexivity. }
    rewrite Hone in Hbuf. cbn [app] in Hbuf. symmetry in Hbuf.
    exists ins. eexists. split; [|split; [|split]].
    + apply get_without_waiting.
      exact (get_section_cons _ false item ins Hbuf).
    + reflexivity.
    + exact Hmoved.
    + cbn [_total_items_removed]. rewrite Hrem. subst put_done.
      simpl. lia.
  - cbn [interfere fold_left act].
    rewrite (get_section_cons _ false item []);
      [|cbn [_queue]; rewrite Hq; reflexivity].
    reflexivity.
Qed.

End Handover.

(** * Further properties of the producer *)

Ltac fields :=
  cbn [BlockingQueue._capacity BlockingQueue._queue BlockingQueue._shutdown
       BlockingQueue._total_items_added BlockingQueue._total_items_removed
       BlockingQueue._total_blocked_puts BlockingQueue._total_blocked_gets
       Producer._source Producer._items_produced Producer._running
       Producer._stop_event
       Consumer._destination Consumer._timeout Consumer._items_consumed
       Consumer._running Consumer._stop_event orb].

Section ProducerExtras.

Context {A : Type}.

Implicit Types (p : Producer.t A) (q : BlockingQueue.t A)
  (sched : list (Producer.round A)) (item : A) (xs : list A).

Lemma interfere_counters_grown (acts : list (BlockingQueue.action A)) q :
  counters_grown q (BlockingQueue.interfere acts q).
Proof.
  apply (interfere_kept (counters_grown q) anything).
  - intros a s _. apply act_counters_grown.
  - apply anything_acts.
  - unfold counters_grown. lia.
Qed.

(** An accepted item is counted by the queue, whatever the others
    do. *)
Lemma put_loop_added env : forall q item (timeout : option Q) blocked,
  BlockingQueue._total_items_added q
  + Z.of_nat (length (put_moved item
                        (BlockingQueue.put_loop q item timeout blocked env)))
  <= BlockingQueue._total_items_added
       (BlockingQueue.final
          (BlockingQueue.put_loop q item timeout blocked env)).
Proof.
  induction env as [|w env IH]; intros q item timeout blocked;
    rewrite put_loop_eq; put_cases q item blocked;
    try destruct (BlockingQueue.wait_raises timeout);
    try destruct blocked; simpl; try lia.
  all: match goal with |- context [BlockingQueue.interfere ?acts ?s1] =>
         pose proof (interfere_counters_grown acts s1) as (Hgrown & _);
         simpl in Hgrown;
         destruct (BlockingQueue.wait timeout w);
         [ specialize (IH (BlockingQueue.interfere acts s1) item timeout
                          true)
         | ]; simpl in *; lia
       end.
Qed.

Lemma producer_end_run p q sched :
  let e := producer_end
             (Producer.loop
                (Producer.mk (Producer._source p)
                   (Producer._items_produced p) true
                   (Producer._stop_event p)) q sched) in
  let e' := producer_end (Producer.run p q sched) in
  Producer._source e'.1 = Producer._source e.1 /\
  Producer._items_produced e'.1 = Producer._items_produced e.1 /\
  Producer._stop_event e'.1 = Producer._stop_event e.1 /\
  e'.2 = e.2.
Proof.
  unfold Producer.run. destruct (Producer.loop _ q sched); simpl; auto.
Qed.




Lemma producer_loop_progress sched : forall p q,
  let e := producer_end (Producer.loop p q sched) in
  let k := Producer._items_produced e.1 - Producer._items_produced p in
  exists taken,
    Producer._source p = taken ++ Producer._source e.1 /\
    0 <= k <= Z.of_nat (length taken) /\
    Z.of_nat (length taken) <= k + 1 /\
    k <= BlockingQueue._total_items_added e.2
         - BlockingQueue._total_items_added q /\
    (Producer._stop_event p = true -> Producer._stop_event e.1 = true).
Proof.
  induction sched as [|r sched IH]; intros p q; cbv zeta;
    rewrite producer_loop_eq;
    destruct (Producer._source p) as [|item rest] eqn:Hsrc;
    try (exists []; cbn; rewrite Hsrc; repeat split; auto; lia);
    destruct (Producer._stop_event p) eqn:Hstop;
    try (exists [item]; cbn; repeat split; auto; lia).
  pose proof (interfere_counters_grown (Producer.before_put r) q)
    as (Hgrown & _).
  pose proof (put_loop_added (Producer.waits r)
                (BlockingQueue.interfere (Producer.before_put r) q)
                item None false) as Hput.
  unfold BlockingQueue.put.
  destruct (BlockingQueue.put_loop _ item None false (Producer.waits r))
    as [[|] q1|q1|e1 q1]; cbn [put_moved BlockingQueue.final length] in Hput;
    try (exists [item]; cbn; repeat split; auto; first [discriminate | lia]).
  match goal with |- context [Producer.loop ?p1 q1 sched] =>
    destruct (IH p1 q1) as (taken & Hsrc' & Hk & Hk1 & Hadd & _) end.
  cbn [Producer._items_produced Producer._source] in *.
  exists (item :: taken). cbv beta iota. cbn [app]. rewrite <- Hsrc'.
  simpl length.
  repeat split; lia.
Qed.

End ProducerExtras.

Section ProducerProperties.

Context {A : Type}.

Implicit Types (p : Producer.t A) (q : BlockingQueue.t A)
  (sched : list (Producer.round A)) (item : A).



(** X10.  A producer whose queue is already shut down produces
    nothing: whatever the other threads do, its first [put] is
    rejected and the run ends there, with the produced-count unchanged
    and exactly one item read from the source. *)
Theorem producer_on_shut_down_queue p q r sched item rest :
  Producer._source p = item :: rest ->
  Producer._stop_event p = false ->
  BlockingQueue.is_shutdown q = true ->
  Producer.run p q (r :: sched) =
  Producer.Finished Producer.PutRejected
    (Producer.mk rest (Producer._items_produced p) false
       (Producer.stop_called r))
    (BlockingQueue.interfere (Producer.before_put r) q).
Proof.
  unfold BlockingQueue.is_shutdown. intros Hsrc Hstop Hs.
  unfold Producer.run. rewrite producer_loop_eq. fields.
  rewrite Hsrc, Hstop.
  rewrite (put_without_waiting _ item None (Producer.waits r) false
             (BlockingQueue.interfere (Producer.before_put r) q));
    [reflexivity|].
  apply put_section_shutdown. apply interfere_latched. exact Hs.
Qed.


(** X12.  Under any schedule, at any point of a run of the producer:
    the source has only lost items at its front; the produced-count
    has not gone down and has risen by the number of items read, or
    by one less (the item in hand, rejected or dropped); the queue's
    added-count has risen by at least as much as the produced-count;
    and a stop signal that was set is still set. *)
Theorem producer_progress p q sched :
  let e := producer_end (Producer.run p q sched) in
  let k := Producer._items_produced e.1 - Producer._items_produced p in
  exists taken,
    Producer._source p = taken ++ Producer._source e.1 /\
    0 <= k <= Z.of_nat (length taken) /\
    Z.of_nat (length taken) <= k + 1 /\
    k <= BlockingQueue._total_items_added e.2
         - BlockingQueue._total_items_added q /\
    (Producer._stop_event p = true -> Producer._stop_event e.1 = true).
Proof.
  pose proof (producer_end_run p q sched) as (Hsrc & Hcount & Hstop & Hq).
  cbv zeta in *. rewrite Hsrc, Hcount, Hstop, Hq.
  exact (producer_loop_progress sched
           (Producer.mk (Producer._source p)
              (Producer._items_produced p) true
              (Producer._stop_event p)) q).
Qed.

End ProducerProperties.

(** * Further properties of the consumer *)

Section ConsumerExtras.

Context {A : Type}.

Implicit Types (c : Consumer.t A) (q : BlockingQueue.t A)
  (sched : list (Consumer.round A)) (xs : list A).







End ConsumerExtras.

Section ConsumerProperties.

Context {A : Type}.

Implicit Types (c : Consumer.t A) (q : BlockingQueue.t A)
  (sched : list (Consumer.round A)).





End ConsumerProperties.

(** * The item generator and the destination container *)

Section GeneratorProperties.

(** X17.  Iterating an [ItemGenerator] yields [generator_func(i)] for
    [i = 0, 1, ..., count - 1], in that order, and nothing else: the
    number of items is [count] when [count] is not negative, and a
    [count] of zero or less yields nothing. *)
Theorem item_generator_yields_count_items {B : Type}
    (g : ItemGenerator.t B) :
  length (ItemGenerator.__iter__ g) = Z.to_nat (ItemGenerator.__len__ g) /\
  (forall i : Z,
     0 <= i < ItemGenerator.__len__ g ->
     ItemGenerator.__iter__ g !! Z.to_nat i =
       Some (ItemGenerator._generator_func g i)) /\
  (forall n : nat,
     ItemGenerator.__len__ g <= Z.of_nat n ->
     ItemGenerator.__iter__ g !! n = None) /\
  (ItemGenerator.__len__ g <= 0 -> ItemGenerator.__iter__ g = []).
Proof.
  unfold ItemGenerator.__iter__, ItemGenerator.__len__.
  split; [|split; [|split]].
  - rewrite length_fmap, length_seqZ. reflexivity.
  - intros i Hi. rewrite list_lookup_fmap, lookup_seqZ_lt by lia.
    simpl. do 2 f_equal. lia.
  - intros n Hn. rewrite list_lookup_fmap, lookup_seqZ_ge by lia.
    reflexivity.
  - intros Hc. rewrite seqZ_nil by exact Hc. reflexivity.
Qed.

(** X18.  The default generator function gives every index its own
    item, so the items of [ItemGenerator(count)] are pairwise
    distinct. *)
Theorem default_items_are_distinct (count : Z) :
  (forall i j : Z,
     ItemGenerator.default_generator_func i =
     ItemGenerator.default_generator_func j -> i = j) /\
  NoDup (ItemGenerator.__iter__ (ItemGenerator.with_default count)).
Proof.
  assert (Hinj : forall i j : Z,
            ItemGenerator.default_generator_func i =
            ItemGenerator.default_generator_func j -> i = j).
  { unfold ItemGenerator.default_generator_func. intros i j H.
    apply (inj pretty). apply (inj (String.app "Item-")). exact H. }
  split; [exact Hinj|].
  unfold ItemGenerator.__iter__, ItemGenerator.with_default,
    ItemGenerator.__init__. simpl.
  apply NoDup_fmap_2; [exact Hinj | apply NoDup_seqZ].
Qed.

End GeneratorProperties.

Section ContainerProperties.

Context {A : Type}.
Import DestinationContainer.

Implicit Types (self : t) (h : gmap loc (list A)) (l : loc)
  (xs : list A).

Lemma contents_alter_eq f l h :
  contents l (alter f l h) =
  match h !! l with Some xs => f xs | None => [] end.
Proof.
  unfold contents. rewrite lookup_alter_eq.
  destruct (h !! l); reflexivity.
Qed.

Lemma contents_alter_ne f l l' h :
  l <> l' -> contents l' (alter f l h) = contents l' h.
Proof.
  intros Hne. unfold contents. rewrite lookup_alter_ne by exact Hne.
  reflexivity.
Qed.

Lemma append_contents self item h :
  is_Some (h !! _items self) ->
  contents (_items self) (append self item h) =
  contents (_items self) h ++ [item].
Proof.
  intros [xs Hxs]. unfold append. rewrite contents_alter_eq.
  unfold contents. rewrite Hxs. reflexivity.
Qed.

Lemma append_is_Some self item h l :
  is_Some (h !! l) -> is_Some (append self item h !! l).
Proof.
  intros Hl. unfold append.
  destruct (decide (_items self = l)) as [->|Hne].
  - rewrite lookup_alter_eq. destruct Hl as [xs ->]. eauto.
  - rewrite lookup_alter_ne by exact Hne. exact Hl.
Qed.

(** X19.  Appends accumulate in order.  After the items [xs] have
    been appended one by one, by whichever threads, the container
    holds what it held before followed by [xs], and [size()] has
    grown by their number; no other list in the heap has changed;
    [clear()] then leaves the container empty. *)
Theorem container_appends_in_order self h xs :
  is_Some (h !! _items self) ->
  let h' := foldl (fun h x => append self x h) h xs in
  contents (_items self) h' = contents (_items self) h ++ xs /\
  size self h' = size self h + Z.of_nat (length xs) /\
  __len__ self h' = size self h' /\
  (forall l, l <> _items self -> h' !! l = h !! l) /\
  contents (_items self) (clear self h') = [] /\
  size self (clear self h') = 0.
Proof.
  intros Hin. cbv zeta.
  assert (Hfold : forall xs h,
            is_Some (h !! _items self) ->
            is_Some (foldl (fun h x => append self x h) h xs
                     !! _items self) /\
            contents (_items self)
              (foldl (fun h x => append self x h) h xs) =
            contents (_items self) h ++ xs /\
            forall l, l <> _items self ->
              foldl (fun h x => append self x h) h xs !! l = h !! l).
  { clear. induction xs as [|x xs IH]; intros h Hin; simpl.
    - rewrite app_nil_r. auto.
    - destruct (IH (append self x h)) as (Hs & Hc & Ho).
      { apply append_is_Some. exact Hin. }
      split; [exact Hs|]. split.
      + rewrite Hc, append_contents by exact Hin.
        rewrite <- app_assoc. reflexivity.
      + intros l Hl. rewrite Ho by exact Hl. unfold append.
        apply lookup_alter_ne. congruence. }
  destruct (Hfold xs h Hin) as ([ys Hys] & Hc & Ho).
  repeat split.
  - exact Hc.
  - unfold size. rewrite Hc, length_app. lia.
  - exact Ho.
  - unfold clear. rewrite contents_alter_eq, Hys. reflexivity.
  - unfold size, clear. rewrite contents_alter_eq, Hys. reflexivity.
Qed.

(** X20.  [get_all()] returns an independent copy.  The list it
    returns is a new object, different from the one the container
    keeps, and holds the container's items at that moment.  Appending
    to the container or clearing it afterwards does not change the
    returned list, and whatever the caller does to the returned list
    does not change the container. *)
Theorem get_all_returns_independent_copy self h :
  is_Some (h !! _items self) ->
  let l := (get_all self h).1 in
  let h1 := (get_all self h).2 in
  l <> _items self /\
  h !! l = None /\
  contents l h1 = contents (_items self) h /\
  contents (_items self) h1 = contents (_items self) h /\
  (forall l', l' <> l -> h1 !! l' = h !! l') /\
  (forall item, contents l (append self item h1) = contents l h1) /\
  contents l (clear self h1) = contents l h1 /\
  (forall f, contents (_items self) (alter f l h1) =
             contents (_items self) h1).
Proof.
  intros Hin. cbv zeta. unfold get_all, alloc. cbn [fst snd].
  set (l := fresh (dom h)).
  assert (Hfresh : h !! l = None).
  { apply not_elem_of_dom. apply is_fresh. }
  assert (Hne : l <> _items self).
  { intros Heq. rewrite Heq in Hfresh. rewrite Hfresh in Hin.
    destruct Hin as [? Hin]. discriminate. }
  repeat split.
  - exact Hne.
  - exact Hfresh.
  - unfold contents at 1. rewrite lookup_insert_eq. reflexivity.
  - unfold contents. rewrite lookup_insert_ne by exact Hne. reflexivity.
  - intros l' Hl'. apply lookup_insert_ne. congruence.
  - intros item. unfold append. apply contents_alter_ne. congruence.
  - unfold clear. apply contents_alter_ne. congruence.
  - intros f. apply contents_alter_ne. exact Hne.
Qed.

(** A new container is empty and is a new object: its list is not
    among the lists of the heap it was created in, which are all left
    as they were. *)
Lemma new_container_is_empty h :
  let self := (__init__ h).1 in
  let h' := (__init__ h).2 in
  h !! _items self = None /\
  is_Some (h' !! _items self) /\
  contents (_items self) h' = [] /\
  size self h' = 0 /\
  (forall l, is_Some (h !! l) -> h' !! l = h !! l).
Proof.
  cbv zeta. unfold __init__, alloc. cbn [fst snd _items].
  set (l := fresh (dom h)).
  assert (Hfresh : h !! l = None).
  { apply not_elem_of_dom. apply is_fresh. }
  repeat split.
  - exact Hfresh.
  - rewrite lookup_insert_eq. eauto.
  - unfold contents. rewrite lookup_insert_eq. reflexivity.
  - unfold size, contents. cbn [_items]. rewrite lookup_insert_eq.
    reflexivity.
  - intros l' [xs Hl']. apply lookup_insert_ne.
    intros ->. rewrite Hfresh in Hl'. discriminate.
Qed.

End ContainerProperties.

(** * Instances of the further properties *)

Section MoreRuns.

Import BlockingQueue.

Lemma put_then_get_hands_over_witness :
  let self : t string := mk 2 [] false 0 0 0 0 in
  let acts := [PutSection "b" false; ShutdownCall] in
  _queue self = [] /\ is_shutdown self = false /\ 1 <= capacity self /\
  forallb only_producers acts = true /\
  put self "a" None [] = Returned true (mk 2 ["a"] false 1 0 0 0) /\
  get (mk 2 ["a"] false 1 0 0 0) (Some 1%Q) [] =
    Returned (true, Some "a") (mk 2 [] false 1 1 0 0) /\
  (exists ins s2,
     get (interfere acts (mk 2 ["a"] false 1 0 0 0)) (Some 1%Q) [] =
       Returned (true, Some "a") s2 /\
     _queue s2 = ins /\
     moved (mk 2 ["a"] false 1 0 0 0)
       (interfere acts (mk 2 ["a"] false 1 0 0 0)) ins [] /\
     _total_items_removed s2 = 0 + 1) /\
  get (interfere [GetSection false] (mk 2 ["a"] false 1 0 0 0)) None
    (alone None) = Blocked (mk 2 [] false 1 1 0 1).
Proof.
  cbv zeta. split; [reflexivity|]. split; [reflexivity|].
  split; [unfold capacity; simpl; lia|]. split; [reflexivity|].
  destruct (put_then_get_hands_over (mk 2 [] false 0 0 0 0) "a"
              None (Some 1%Q) [] [] eq_refl eq_refl
              ltac:(unfold capacity; simpl; lia))
    as (s1 & Hput & Hget & Hothers & Htaken).
  injection Hput as <-.
  split; [reflexivity|]. split; [exact Hget|].
  split; [|exact Htaken].
  exact (Hothers [PutSection "b" false; ShutdownCall] eq_refl).
Defined.

Lemma observers_agree_witness :
  let q0 : t string := mk 2 [] false 0 0 0 0 in
  let calls :=
    [Put "a" None []; Put "b" None []; Get None []; Clear; Shutdown] in
  __init__ string 2 = inr q0 /\
  Forall (fun o =>
            let s := final o in
            (is_full s = true <-> size s = capacity s) /\
            (is_empty s = true <-> size s = 0) /\
            (is_empty s = true -> is_full s = false) /\
            __len__ s = size s)
         (run calls q0).
Proof.
  cbv zeta. split; [reflexivity|].
  exact (observers_agree 2 _ _ eq_refl).
Defined.

Lemma blocked_calls_counted_once_witness :
  let self : t string := mk 1 ["a"] false 1 0 0 0 in
  let env :=
    [mkWakeup [] true; mkWakeup [] true; mkWakeup [GetSection false] true]
  in
  permitted_env no_puts env = true /\
  put self "b" None env = Returned true (mk 1 ["b"] false 2 1 1 0) /\
  _total_blocked_puts (final (put self "b" None env)) =
  _total_blocked_puts self
  + (if is_full self && negb (is_shutdown self) then 1 else 0).
Proof.
  cbv zeta. split; [reflexivity|]. split; [reflexivity|].
  exact (proj1 (blocked_calls_counted_once (mk 1 ["a"] false 1 0 0 0) "b"
                  None
                  [mkWakeup [] true; mkWakeup [] true;
                   mkWakeup [GetSection false] true]) eq_refl).
Defined.

Lemma removed_never_exceeds_added_witness :
  let q0 : t string := mk 2 [] false 0 0 0 0 in
  let calls :=
    [Put "a" None []; Put "b" None []; Clear; Put "c" None [];
     Get None []; Get (Some 0%Q) (alone (Some 0%Q))] in
  __init__ string 2 = inr q0 /\
  Forall (fun o =>
            let s := final o in
            0 <= _total_items_removed s <= _total_items_added s /\
            0 <= size s <= _total_items_added s - _total_items_removed s /\
            0 <= _total_blocked_puts s /\
            0 <= _total_blocked_gets s)
         (run calls q0).
Proof.
  cbv zeta. split; [reflexivity|].
  exact (removed_never_exceeds_added 2 _ _ eq_refl).
Defined.

Lemma shutdown_releases_waiters_witness :
  let self : t string := mk 1 ["a"] false 1 0 0 0 in
  let w := mkWakeup [GetSection false; ShutdownCall] true in
  wait_raises None = None /\
  is_shutdown self = false /\ shuts_down (during w) = true /\
  is_full self = true /\
  exists s',
    put self "b" None [w] = Returned false s' /\ is_shutdown s' = true.
Proof.
  cbv zeta. split; [reflexivity|]. split; [reflexivity|].
  split; [reflexivity|]. split; [reflexivity|].
  exact (proj1 (shutdown_releases_waiters (mk 1 ["a"] false 1 0 0 0) "b"
                  None (mkWakeup [GetSection false; ShutdownCall] true) []
                  eq_refl eq_refl eq_refl) eq_refl).
Defined.

Lemma spurious_wakeup_is_harmless_witness :
  let self : t string := mk 1 ["a"] false 1 0 0 0 in
  let w : wakeup string := mkWakeup [] true in
  let env := [mkWakeup [GetSection false] true] in
  during w = [] /\ wait (Some 1%Q) w = true /\
  put self "b" (Some 1%Q) (w :: env) = put self "b" (Some 1%Q) env /\
  get self (Some 1%Q) (w :: env) = get self (Some 1%Q) env.
Proof.
  cbv zeta. split; [reflexivity|]. split; [reflexivity|].
  exact (spurious_wakeup_is_harmless (mk 1 ["a"] false 1 0 0 0) "b"
           (Some 1%Q) (mkWakeup [] true)
           [mkWakeup [GetSection false] true] eq_refl eq_refl).
Defined.



Lemma producer_on_shut_down_queue_witness :
  let p := Producer.__init__ ["a"; "b"] in
  let q : t string := mk 2 ["z"] true 1 0 0 0 in
  let r := Producer.mkRound [GetSection false] [] false in
  Producer._source p = "a" :: ["b"] /\ Producer._stop_event p = false /\
  is_shutdown q = true /\
  Producer.run p q [r] =
  Producer.Finished Producer.PutRejected
    (Producer.mk ["b"] 0 false false) (mk 2 [] true 1 1 0 0).
Proof.
  cbv zeta. split; [reflexivity|]. split; [reflexivity|].
  split; [reflexivity|].
  exact (producer_on_shut_down_queue
           (Producer.__init__ ["a"; "b"]) (mk 2 ["z"] true 1 0 0 0)
           (Producer.mkRound [GetSection false] [] false) [] "a" ["b"]
           eq_refl eq_refl eq_refl).
Defined.


Lemma producer_progress_witness :
  let p := Producer.stop (Producer.__init__ ["a"; "b"]) in
  let q : t string := mk 1 [] false 0 0 0 0 in
  Producer._stop_event p = true /\
  Producer._stop_event (producer_end (Producer.run p q [])).1 = true.
Proof.
  cbv zeta. split; [reflexivity|].
  destruct (producer_progress
              (Producer.stop (Producer.__init__ ["a"; "b"]))
              (mk 1 [] false 0 0 0 0) []) as (_ & _ & _ & _ & _ & H).
  exact (H eq_refl).
Defined.





Lemma item_generator_yields_count_items_witness :
  let g := ItemGenerator.__init__ 3 (fun i => i * i) in
  0 <= 2 < ItemGenerator.__len__ g /\
  ItemGenerator.__iter__ g !! Z.to_nat 2 = Some 4.
Proof.
  cbv zeta. split; [unfold ItemGenerator.__len__; simpl; lia|].
  exact (proj1 (proj2 (item_generator_yields_count_items
                         (ItemGenerator.__init__ 3 (fun i => i * i))))
           2 ltac:(unfold ItemGenerator.__len__; simpl; lia)).
Defined.

Lemma default_items_are_distinct_witness :
  ItemGenerator.default_generator_func 7 = "Item-7" /\
  (ItemGenerator.default_generator_func 7 =
   ItemGenerator.default_generator_func 7 -> 7 = 7) /\
  NoDup (ItemGenerator.__iter__ (ItemGenerator.with_default 3)).
Proof.
  split; [vm_compute; reflexivity|].
  split; [exact (proj1 (default_items_are_distinct 3) 7 7)
         | exact (proj2 (default_items_are_distinct 3))].
Defined.

Lemma container_appends_in_order_witness :
  let self := DestinationContainer.mk 1%positive in
  let h : gmap positive (list string) := {[1%positive := ["a"]]} in
  let h' :=
    foldl (fun h x => DestinationContainer.append self x h) h ["b"; "c"] in
  is_Some (h !! DestinationContainer._items self) /\
  DestinationContainer.contents (DestinationContainer._items self) h' =
    ["a"; "b"; "c"] /\
  DestinationContainer.size self h' = 3.
Proof.
  cbv zeta.
  assert (Hin : is_Some
            (({[1%positive := ["a"]]} : gmap positive (list string))
             !! DestinationContainer._items
                  (DestinationContainer.mk 1%positive)))
    by (exists ["a"]; reflexivity).
  split; [exact Hin|].
  destruct (container_appends_in_order (DestinationContainer.mk 1%positive)
              ({[1%positive := ["a"]]} : gmap positive (list string))
              ["b"; "c"] Hin)
    as (H1 & H2 & _).
  split; [exact H1 | exact H2].
Defined.

Lemma get_all_returns_independent_copy_witness :
  let self := DestinationContainer.mk 1%positive in
  let h : gmap positive (list string) := {[1%positive := ["a"; "b"]]} in
  let l := (DestinationContainer.get_all self h).1 in
  let h1 := (DestinationContainer.get_all self h).2 in
  is_Some (h !! DestinationContainer._items self) /\
  l <> DestinationContainer._items self /\
  DestinationContainer.contents l
    (DestinationContainer.append self "c" h1) = ["a"; "b"] /\
  DestinationContainer.contents (DestinationContainer._items self)
    (DestinationContainer.append self "c" h1) = ["a"; "b"; "c"].
Proof.
  cbv zeta.
  assert (Hin : is_Some
            (({[1%positive := ["a"; "b"]]} : gmap positive (list string))
             !! DestinationContainer._items
                  (DestinationContainer.mk 1%positive)))
    by (exists ["a"; "b"]; reflexivity).
  split; [exact Hin|].
  destruct (get_all_returns_independent_copy
              (DestinationContainer.mk 1%positive)
              ({[1%positive := ["a"; "b"]]} : gmap positive (list string))
              Hin)
    as (H1 & _ & H3 & _ & _ & H6 & _).
  split; [exact H1|]. split.
  - rewrite H6. exact H3.
  - vm_compute. reflexivity.
Defined.

End MoreRuns.

(** * Stopping a thread *)

Section Stopping.

Context {A : Type}.



End Stopping.

Section StoppingRuns.

Import BlockingQueue.

Example test_default_generator :
  ItemGenerator.__iter__ (ItemGenerator.with_default 3) =
  ["Item-0"; "Item-1"; "Item-2"].
Proof. vm_compute. reflexivity. Qed.

Example test_custom_generator :
  ItemGenerator.__iter__ (ItemGenerator.__init__ 4 (fun i => i ^ 2)) =
  [0; 1; 4; 9].
Proof. vm_compute. reflexivity. Qed.

(** Three consumers are given one destination in
    [test_multiple_consumers] and in the demos.  Seen from one of
    them: another consumer takes ["a"] and appends it, this one takes
    ["b"]; the shared destination has grown by two items, the
    consumed-count of this consumer by one. *)
Example consumers_share_a_destination :
  Consumer.run (Consumer.__init__ None (Some (1 # 2)%Q))
    (mk 10 ["a"; "b"] false 2 0 0 0)
    [Consumer.mkRound [GetSection false] [] [] [] ["a"] false] =
  Consumer.Unfinished
    (Consumer.mk ["a"; "b"] (Some (1 # 2)%Q) 1 true false)
    (mk 10 [] false 2 2 0 0).
Proof. reflexivity. Qed.

(** A round in which somebody else appends to the destination is not
    one in which the other threads only produce. *)
Example appending_is_consuming :
  let r : Consumer.round string :=
    Consumer.mkRound [] [] [] [] ["a"] false in
  permitted_consumer_round only_producers r = false /\
  permitted_consumer_round anything r = true.
Proof. split; reflexivity. Qed.

(** A stop request does not wake a consumer that waits without a
    timeout on a queue nobody touches. *)
Example stop_does_not_wake_a_waiting_consumer :
  Consumer.run (Consumer.__init__ None None)
    (mk 10 ([] : list string) false 0 0 0 0)
    [Consumer.mkRound [] (alone None) [] [] [] true] =
  Consumer.Unfinished
    (Consumer.mk [] None 0 true true) (mk 10 [] false 0 0 0 1).
Proof. reflexivity. Qed.


End StoppingRuns.
